(** * mattermost-server: password checks (package users) and the api4
      scheme / preference handlers.

    Shallow embedding of

    - [users]: [CheckUserPassword], [ValidateIAM],
      [IsPasswordValidWithSettings];
    - [api4/scheme.go]: [createScheme], [getScheme], [getSchemes],
      [getTeamsForScheme], [getChannelsForScheme], [patchScheme],
      [deleteScheme];
    - [api4/preference.go]: [getPreferences], [getPreferencesByCategory],
      [getPreferenceByCategoryAndName], [updatePreferences],
      [deletePreferences].

    Go strings are byte strings ([string]); Go [int] values are [Z];
    a Go [error] / [*model.AppError] result is an [option] ([None] is
    [nil]); an external collaborator (HTTP endpoint, business facade,
    permission oracle, license) is a function the development
    quantifies over. *)

From Stdlib Require Import String Ascii List ZArith Bool Lia.
Import ListNotations.

Local Open Scope string_scope.
Local Open Scope Z_scope.

(* ===================================================================== *)
(** ** Package users *)
(* ===================================================================== *)

Module Users.

(** [model.User], the fields the package reads or could read. *)
Record User := {
  Id : string;
  Username : string;
  Password : string;   (* the stored bcrypt hash *)
  Email : string
}.

(** The package's error values; [NewErrInvalidPassword id]. *)
Inductive error :=
| ErrInvalidPassword (id : string).

Definition NewErrInvalidPassword (id : string) : error := ErrInvalidPassword id.

(** [http.Response], the field [ValidateIAM] reads. *)
Record Response := { StatusCode : Z }.

Section IAM.

(** [json.Marshal] on the two-entry [map[string]string] literal. *)
Variable json_Marshal : list (string * string) -> string.

(** [http.Post url contentType body]: a response, or a transport
    error.  The answer to a request is the environment's; the code
    contributes the request. *)
Variable http_Post : string -> string -> string -> Response + string.

Definition ValidateIAM (username password : string) : bool :=
  let rb := json_Marshal [("username", username); ("password", password)] in
  match http_Post "https://iam.pajak.or.id/api/authentication"
                  "application/json" rb with
  | inr _ => false
  | inl resp => if StatusCode resp =? 200 then true else false
  end.

Definition CheckUserPassword (user : User) (password : string) : option error :=
  if negb (Bool.eqb (ValidateIAM (Username user) password) true)
  then Some (NewErrInvalidPassword "")
  else None.

End IAM.

(** [model.PasswordSettings] (each field is a pointer the code
    dereferences). *)
Record PasswordSettings := {
  MinimumLength : Z;
  Lowercase : bool;
  Uppercase : bool;
  Number : bool;
  Symbol : bool
}.

(** Byte length, Go's [len] on a string. *)
Definition len (s : string) : Z := Z.of_nat (String.length s).

(** [strings.ContainsAny s chars].  The character classes of package
    model are ASCII, for which the function is byte membership. *)
Definition ContainsAny (s chars : string) : bool :=
  existsb (fun c => existsb (Ascii.eqb c) (list_ascii_of_string chars))
          (list_ascii_of_string s).

Section PasswordPolicy.

(** Constants of package model. *)
Variable PasswordMaximumLength : Z.
Variables LowercaseLetters UppercaseLetters NUMBERS SYMBOLS : string.

Definition IsPasswordValidWithSettings
           (password : string) (settings : PasswordSettings) : option error :=
  let id := "model.user.is_valid.pwd" in
  let isError := false in
  let isError :=
    if (len password <? MinimumLength settings)
       || (len password >? PasswordMaximumLength)
    then true else isError in
  let '(id, isError) :=
    if Lowercase settings
    then (id ++ "_lowercase",
          if negb (ContainsAny password LowercaseLetters) then true else isError)
    else (id, isError) in
  let '(id, isError) :=
    if Uppercase settings
    then (id ++ "_uppercase",
          if negb (ContainsAny password UppercaseLetters) then true else isError)
    else (id, isError) in
  let '(id, isError) :=
    if Number settings
    then (id ++ "_number",
          if negb (ContainsAny password NUMBERS) then true else isError)
    else (id, isError) in
  let '(id, isError) :=
    if Symbol settings
    then (id ++ "_symbol",
          if negb (ContainsAny password SYMBOLS) then true else isError)
    else (id, isError) in
  if isError then Some (NewErrInvalidPassword (id ++ ".app_error")) else None.

End PasswordPolicy.

(** The password has a byte of the class [chars]. *)
Definition has_char_of (password chars : string) : Prop :=
  exists c, In c (list_ascii_of_string password)
            /\ In c (list_ascii_of_string chars).

(** The error id the settings select. *)
Definition policy_id (settings : PasswordSettings) : string :=
  "model.user.is_valid.pwd"
    ++ (if Lowercase settings then "_lowercase" else "")
    ++ (if Uppercase settings then "_uppercase" else "")
    ++ (if Number settings then "_number" else "")
    ++ (if Symbol settings then "_symbol" else "")
    ++ ".app_error".

(** The settings check as one boolean. *)
Definition conforms (maxLen : Z) (lc uc nums syms password : string)
           (settings : PasswordSettings) : bool :=
  negb ((len password <? MinimumLength settings) || (len password >? maxLen))
  && (negb (Lowercase settings) || ContainsAny password lc)
  && (negb (Uppercase settings) || ContainsAny password uc)
  && (negb (Number settings) || ContainsAny password nums)
  && (negb (Symbol settings) || ContainsAny password syms).

(** *** Hashing, and the service's own check *)

Section Bcrypt.

(** [bcrypt.GenerateFromPassword password cost]: the hash, or an
    error. *)
Variable bcrypt_GenerateFromPassword : string -> Z -> string + string.

(** [bcrypt.CompareHashAndPassword hash password]: [None] is nil. *)
Variable bcrypt_CompareHashAndPassword : string -> string -> option string.

(** [None] is the panic on bcrypt's error. *)
Definition HashPassword (password : string) : option string :=
  match bcrypt_GenerateFromPassword password 10 with
  | inr _ => None
  | inl hash => Some hash
  end.

(** The error is its text: [errors.New]'s or bcrypt's. *)
Definition ComparePassword (hash password : string) : option string :=
  if String.eqb password "" || String.eqb hash ""
  then Some "empty password or hash"
  else bcrypt_CompareHashAndPassword hash password.

End Bcrypt.

(** [us.config()]: the two settings [isPasswordValid] reads. *)
Record ServiceSettings := { EnableDeveloper : bool }.

Module Config.
Record t := mk {
  ServiceSettings : ServiceSettings;
  PasswordSettings : PasswordSettings
}.
End Config.

Section Service.

Variable PasswordMaximumLength : Z.
Variables LowercaseLetters UppercaseLetters NUMBERS SYMBOLS : string.

(** The method of [UserService], on the service's configuration. *)
Definition isPasswordValid (config : Config.t) (password : string) : option error :=
  if EnableDeveloper (Config.ServiceSettings config)
  then None
  else IsPasswordValidWithSettings PasswordMaximumLength LowercaseLetters
         UppercaseLetters NUMBERS SYMBOLS password (Config.PasswordSettings config).

End Service.

(** A stand-in for bcrypt that keeps the password readable: it refuses
    more than 72 bytes and compares by prefix. *)
Definition demoGenerate (password : string) (cost : Z) : string + string :=
  if len password >? 72
  then inr "bcrypt: password length exceeds 72 bytes"
  else inl ("$2a$10$" ++ password).

Definition demoCompare (hash password : string) : option string :=
  if String.eqb hash ("$2a$10$" ++ password)
  then None
  else Some "crypto/bcrypt: hashedPassword is not the hash of the given password".

Definition laxSettings : PasswordSettings :=
  {| MinimumLength := 5; Lowercase := true; Uppercase := false;
     Number := false; Symbol := false |}.

(** The flags of [strictSettings] with a longer minimum. *)
Definition longStrictSettings : PasswordSettings :=
  {| MinimumLength := 12; Lowercase := true; Uppercase := true;
     Number := true; Symbol := false |}.

(** A minimum above the upstream maximum of 72. *)
Definition emptyRangeSettings : PasswordSettings :=
  {| MinimumLength := 100; Lowercase := false; Uppercase := false;
     Number := false; Symbol := false |}.

(** An endpoint that accepts alice / "s3cret" and nobody else, with a
    marshaller that joins the two values. *)
Definition demoMarshal (kv : list (string * string)) : string :=
  String.concat "&" (map (fun p => fst p ++ "=" ++ snd p) kv).

Definition demoPost (url contentType body : string) : Response + string :=
  if String.eqb body "username=alice&password=s3cret"
  then inl {| StatusCode := 200 |}
  else inl {| StatusCode := 401 |}.

Definition alice : User :=
  {| Id := "u1"; Username := "alice"; Password := "$2a$10$N9qo8uLOickgx2ZMRZoMye";
     Email := "alice@example.org" |}.

(** The same account name with another stored hash. *)
Definition aliceRehashed : User :=
  {| Id := "u1"; Username := "alice"; Password := ""; Email := "alice@example.org" |}.

Definition strictSettings : PasswordSettings :=
  {| MinimumLength := 8; Lowercase := true; Uppercase := true;
     Number := true; Symbol := false |}.

End Users.

(* ===================================================================== *)
(** ** Package api4: data *)
(* ===================================================================== *)

Module Api4.

(** Status codes of net/http. *)
Definition StatusCreated : Z := 201.
Definition StatusBadRequest : Z := 400.
Definition StatusForbidden : Z := 403.
Definition StatusNotImplemented : Z := 501.

(** Constants of package model the handlers compare against. *)
Definition SchemeScopeTeam : string := "team".
Definition SchemeScopeChannel : string := "channel".
Definition PreferenceCategoryFlaggedPost : string := "flagged_post".

Module Scheme.
Record t := mk { Id : string; Name : string; Scope : string }.
End Scheme.

Module SchemePatch.
Record t := mk { Name : option string; Description : option string }.
End SchemePatch.

Module Preference.
Record t := mk { UserId : string; Category : string; Name : string; Value : string }.
End Preference.

Definition Preferences := list Preference.t.

Module Post.
Record t := mk { Id : string; ChannelId : string }.
End Post.

Module Team.
Record t := mk { Id : string; SchemeId : string }.
End Team.

Module Channel.
Record t := mk { Id : string; SchemeId : string }.
End Channel.

Module Session.
Record t := mk { Id : string; UserId : string }.
End Session.

(** The permissions the two files name. *)
Inductive Permission :=
| PermissionSysconsoleWriteUserManagementPermissions
| PermissionSysconsoleReadUserManagementPermissions
| PermissionSysconsoleReadUserManagementTeams
| PermissionSysconsoleReadUserManagementChannels
| PermissionEditOtherUsers
| PermissionReadChannel.

(** Modelled from the spec: the [Id] field of the [model.Permission]
    constants (package model is not part of the slice); the spec only
    says that a permission has an id. *)
Definition Permission_Id (p : Permission) : string :=
  match p with
  | PermissionSysconsoleWriteUserManagementPermissions =>
      "sysconsole_write_user_management_permissions"
  | PermissionSysconsoleReadUserManagementPermissions =>
      "sysconsole_read_user_management_permissions"
  | PermissionSysconsoleReadUserManagementTeams =>
      "sysconsole_read_user_management_teams"
  | PermissionSysconsoleReadUserManagementChannels =>
      "sysconsole_read_user_management_channels"
  | PermissionEditOtherUsers => "edit_other_users"
  | PermissionReadChannel => "read_channel"
  end.

(** [model.AppError]: the arguments [model.NewAppError] is called with
    (where, id, params, details, status). *)
Module AppError.
Record t := mk {
  Where : string;
  Id : string;
  Params : list (string * string);
  DetailedError : string;
  StatusCode : Z
}.
End AppError.

Definition NewAppError (where_ id : string) (params : list (string * string))
           (details : string) (status : Z) : AppError.t :=
  AppError.mk where_ id params details status.

(** [web.Params], the fields the handlers read. *)
Module Params.
Record t := mk {
  UserId : string;
  SchemeId : string;
  Category : string;
  PreferenceName : string;
  Scope : string;
  Page : Z;
  PerPage : Z
}.
End Params.

(** [http.Request], the body. *)
Record Request := { Body : string }.

(** [model.License] with [Features.CustomPermissionsSchemes]. *)
Record License := { CustomPermissionsSchemes : bool }.

(** Audit records. *)
Inductive Status := Fail | Success.

Inductive MetaValue :=
| MetaScheme (s : Scheme.t).

Module Record_.
Record t := mk {
  Event : string;
  Status : Status;
  Meta : list (string * MetaValue)
}.
End Record_.

(** What a handler writes to the [http.ResponseWriter]. *)
Inductive Payload :=
| JsonScheme (s : Scheme.t)
| JsonSchemes (l : list Scheme.t)
| JsonTeams (l : list Team.t)
| JsonChannels (l : list Channel.t)
| JsonPreferences (l : Preferences)
| JsonPreference (p : Preference.t)
| JsonStatusOK.

(** Calls into the business facade [c.App], with their arguments. *)
Inductive Call :=
| CallCreateScheme (s : Scheme.t)
| CallGetScheme (id : string)
| CallPatchScheme (s : Scheme.t) (p : SchemePatch.t)
| CallDeleteScheme (id : string)
| CallGetSchemesPage (scope : string) (page perPage : Z)
| CallGetTeamsForSchemePage (s : Scheme.t) (page perPage : Z)
| CallGetChannelsForSchemePage (s : Scheme.t) (page perPage : Z)
| CallGetPreferencesForUser (userId : string)
| CallGetPreferenceByCategoryForUser (userId category : string)
| CallGetPreferenceByCategoryAndNameForUser (userId category name : string)
| CallUpdatePreferences (userId : string) (prefs : Preferences)
| CallDeletePreferences (userId : string) (prefs : Preferences)
| CallGetSinglePost (postId : string).

(** Questions put to the permission oracle. *)
Inductive Check :=
| ToPermission (p : Permission)
| ToUser (userId : string)
| ToChannel (channelId : string) (p : Permission).

(** What a request does, in the order it does it. *)
Inductive Event :=
| Facade (call : Call)
| PermissionCheck (chk : Check) (granted : bool)
| LicenseCheck (licensed : bool)
| ErrSet (e : AppError.t)
| AuditBegin (name : string) (initial : Status)
| AuditMeta (key : string) (val : MetaValue)
| AuditSuccess
| AuditEmit (rec : Record_.t)
| LegacyAudit (extraInfo : string)
| WriteHeader (code : Z)
| Write (p : Payload).

(** The collaborators behind [c.App]: license, permission oracle and
    business facade.  A facade function returns its result or its
    [*model.AppError]. *)
Record App := {
  SrvLicense : option License;
  AppSessionHasPermissionTo : Session.t -> Permission -> bool;
  AppSessionHasPermissionToUser : Session.t -> string -> bool;
  AppSessionHasPermissionToChannel : Session.t -> string -> Permission -> bool;
  AppCreateScheme : Scheme.t -> Scheme.t + AppError.t;
  AppGetScheme : string -> Scheme.t + AppError.t;
  AppPatchScheme : Scheme.t -> SchemePatch.t -> Scheme.t + AppError.t;
  AppDeleteScheme : string -> Scheme.t + AppError.t;
  AppGetSchemesPage : string -> Z -> Z -> list Scheme.t + AppError.t;
  AppGetTeamsForSchemePage : Scheme.t -> Z -> Z -> list Team.t + AppError.t;
  AppGetChannelsForSchemePage : Scheme.t -> Z -> Z -> list Channel.t + AppError.t;
  AppGetPreferencesForUser : string -> Preferences + AppError.t;
  AppGetPreferenceByCategoryForUser : string -> string -> Preferences + AppError.t;
  AppGetPreferenceByCategoryAndNameForUser :
    string -> string -> string -> Preference.t + AppError.t;
  AppUpdatePreferences : string -> Preferences -> option AppError.t;
  AppDeletePreferences : string -> Preferences -> option AppError.t;
  AppGetSinglePost : string -> Post.t + AppError.t
}.

(** The JSON decoders of package model; [None] / [inr] is a body that
    does not parse. *)
Record Decoders := {
  SchemeFromJson : string -> option Scheme.t;
  SchemePatchFromJson : string -> option SchemePatch.t;
  PreferencesFromJson : string -> Preferences + string
}.

(** [web.Context]: parameters, session and the error slot. *)
Record Context := {
  Params : Params.t;
  Session : Session.t;
  Err : option AppError.t
}.

(** The state of one request: the context, the audit record the
    handler's [auditRec] points to, and the events so far. *)
Record State := {
  c : Context;
  auditRec : option Record_.t;
  trace : list Event
}.

Definition init (params : Params.t) (session : Session.t) : State :=
  {| c := {| Params := params; Session := session; Err := None |};
     auditRec := None;
     trace := [] |}.

(* ===================================================================== *)
(** ** Package api4: handler monad *)
(* ===================================================================== *)

(** A handler step runs on the request state and either goes on with a
    value ([Some]) or has executed Go's [return] ([None]). *)
Definition H (A : Type) : Type := State -> option A * State.

Definition ret {A : Type} (a : A) : H A := fun s => (Some a, s).

Definition bind {A B : Type} (m : H A) (k : A -> H B) : H B :=
  fun s =>
    match m s with
    | (Some a, s') => k a s'
    | (None, s') => (None, s')
    end.

(** Go's [return] statement. *)
Definition Return {A : Type} : H A := fun s => (None, s).

(** [if b { m }]. *)
Definition When (b : bool) (m : H unit) : H unit :=
  if b then m else ret tt.

(** [defer d]: [d] runs when the body is left, on every path. *)
Definition Defer (d : State -> State) (body : H unit) : H unit :=
  fun s => let (r, s') := body s in (r, d s').

Declare Scope handler_scope.
Delimit Scope handler_scope with handler.
Notation "x <- m ;; k" := (bind m (fun x => k))
  (at level 61, m at next level, right associativity) : handler_scope.
Notation "m ;; k" := (bind m (fun _ => k))
  (at level 61, right associativity) : handler_scope.
Local Open Scope handler_scope.

Definition log (e : Event) (s : State) : State :=
  {| c := c s; auditRec := auditRec s; trace := trace s ++ [e] |}.

Definition getParams : H Params.t := fun s => (Some (Params (c s)), s).

(** Every assignment to [c.Err]. *)
Definition SetErr (e : AppError.t) : H unit :=
  fun s =>
    (Some tt,
     log (ErrSet e)
         {| c := {| Params := Params (c s); Session := Session (c s); Err := Some e |};
            auditRec := auditRec s;
            trace := trace s |}).

(** Modelled from the spec: [c.SetInvalidParam] (web/context.go is not
    part of the slice) "sets a RequestError of kind InvalidParameter
    carrying the field's identifier, with HTTP status 400". *)
Definition SetInvalidParam (parameter : string) : H unit :=
  SetErr (NewAppError "Context" parameter [] "" StatusBadRequest).

(** Modelled from the spec: [c.SetPermissionError] (web/context.go)
    "sets RequestError kind PermissionDenied, HTTP 403, identifier =
    the permission's id". *)
Definition SetPermissionError (p : Permission) : H unit :=
  SetErr (NewAppError "Permissions" (Permission_Id p) [] "" StatusForbidden).

(** Modelled from the spec: the [Require...] checks of the validation
    chain (web/context.go): each "inspects one RequestParams field, and
    if absent/empty sets a RequestError of kind InvalidParameter
    carrying the field's identifier"; "once the RequestError slot is
    non-empty, every subsequent check [...] is a no-op that returns
    immediately".  An absent field is the empty string. *)
Definition Require (field : Params.t -> string) (identifier : string) : H unit :=
  fun s =>
    match Err (c s) with
    | Some _ => (Some tt, s)
    | None =>
        if String.eqb (field (Params (c s))) ""
        then SetInvalidParam identifier s
        else (Some tt, s)
    end.

Definition RequireUserId : H unit := Require Params.UserId "user_id".
Definition RequireSchemeId : H unit := Require Params.SchemeId "scheme_id".
Definition RequireCategory : H unit := Require Params.Category "category".
Definition RequirePreferenceName : H unit :=
  Require Params.PreferenceName "preference_name".

(** [if c.Err != nil { return }]. *)
Definition ReturnIfErr : H unit :=
  fun s => match Err (c s) with Some _ => (None, s) | None => (Some tt, s) end.

(** Modelled from the spec: the audit recorder (package audit and
    web/context.go): [MakeAuditRecord] "creates a record with status
    Fail and empty metadata" (the status is the one the handler
    passes); [AddMeta] appends to "an ordered sequence of metadata
    entries", "both entries are preserved in emission order";
    [Success] "flips status to Success"; [LogAuditRec] emits the
    record. *)
Definition MakeAuditRecord (event : string) (initialStatus : Status) : H unit :=
  fun s =>
    (Some tt,
     log (AuditBegin event initialStatus)
         {| c := c s;
            auditRec := Some (Record_.mk event initialStatus []);
            trace := trace s |}).

(** Modelled from the spec: [auditRec.AddMeta] (package audit) appends
    the entry; an entry for a key already present is kept, "both
    entries are preserved in emission order". *)
Definition auditRec_AddMeta (name : string) (val : MetaValue) : H unit :=
  fun s =>
    (Some tt,
     log (AuditMeta name val)
         {| c := c s;
            auditRec :=
              match auditRec s with
              | Some rec =>
                  Some (Record_.mk (Record_.Event rec) (Record_.Status rec)
                                   (Record_.Meta rec ++ [(name, val)]))
              | None => None
              end;
            trace := trace s |}).

(** Modelled from the spec: [auditRec.Success] (package audit) "flips
    status to Success". *)
Definition auditRec_Success : H unit :=
  fun s =>
    (Some tt,
     log AuditSuccess
         {| c := c s;
            auditRec :=
              match auditRec s with
              | Some rec =>
                  Some (Record_.mk (Record_.Event rec) Success (Record_.Meta rec))
              | None => None
              end;
            trace := trace s |}).

(** Modelled from the spec: [c.LogAuditRec] (web/context.go) emits the
    record as it stands when the handler is left. *)
Definition LogAuditRec (s : State) : State :=
  match auditRec s with
  | Some rec => log (AuditEmit rec) s
  | None => s
  end.

(** [c.LogAudit(extraInfo)] (web/context.go), which the spec does not
    describe: an event of its own, apart from the audit record. *)
Definition LogAudit (extraInfo : string) : H unit :=
  fun s => (Some tt, log (LegacyAudit extraInfo) s).

(** The response writer. *)
Definition w_WriteHeader (code : Z) : H unit :=
  fun s => (Some tt, log (WriteHeader code) s).

(** [json.NewEncoder(w).Encode(v)] and [w.Write(...ToJson(v))]; an
    encoding failure is only logged. *)
Definition w_Write (p : Payload) : H unit :=
  fun s => (Some tt, log (Write p) s).

(** Modelled from the spec: [ReturnStatusOK] (api4/api.go) writes the
    "bare OK signal for operations with no payload". *)
Definition ReturnStatusOK : H unit := w_Write JsonStatusOK.

Section Handlers.

Variable app : App.
Variable model : Decoders.

(** The license condition of the three gated handlers:
    [License() == nil || !*License().Features.CustomPermissionsSchemes]. *)
Definition LicenseLacksCustomPermissionsSchemes : H bool :=
  fun s =>
    let lacks :=
      match SrvLicense app with
      | None => true
      | Some l => negb (CustomPermissionsSchemes l)
      end in
    (Some lacks, log (LicenseCheck (negb lacks)) s).

Definition SessionHasPermissionTo (p : Permission) : H bool :=
  fun s =>
    let granted := AppSessionHasPermissionTo app (Session (c s)) p in
    (Some granted, log (PermissionCheck (ToPermission p) granted) s).

Definition SessionHasPermissionToUser (userId : string) : H bool :=
  fun s =>
    let granted := AppSessionHasPermissionToUser app (Session (c s)) userId in
    (Some granted, log (PermissionCheck (ToUser userId) granted) s).

Definition SessionHasPermissionToChannel (channelId : string) (p : Permission)
  : H bool :=
  fun s =>
    let granted := AppSessionHasPermissionToChannel app (Session (c s)) channelId p in
    (Some granted, log (PermissionCheck (ToChannel channelId p) granted) s).

(** A facade call: the event, then the facade's answer. *)
Definition facade {A : Type} (call : Call) (answer : A) : H A :=
  fun s => (Some answer, log (Facade call) s).

Definition CreateScheme (scheme : Scheme.t) :=
  facade (CallCreateScheme scheme) (AppCreateScheme app scheme).
Definition GetScheme (id : string) :=
  facade (CallGetScheme id) (AppGetScheme app id).
Definition PatchScheme (scheme : Scheme.t) (patch : SchemePatch.t) :=
  facade (CallPatchScheme scheme patch) (AppPatchScheme app scheme patch).
Definition DeleteScheme (id : string) :=
  facade (CallDeleteScheme id) (AppDeleteScheme app id).
Definition GetSchemesPage (scope : string) (page perPage : Z) :=
  facade (CallGetSchemesPage scope page perPage)
         (AppGetSchemesPage app scope page perPage).
Definition GetTeamsForSchemePage (scheme : Scheme.t) (page perPage : Z) :=
  facade (CallGetTeamsForSchemePage scheme page perPage)
         (AppGetTeamsForSchemePage app scheme page perPage).
Definition GetChannelsForSchemePage (scheme : Scheme.t) (page perPage : Z) :=
  facade (CallGetChannelsForSchemePage scheme page perPage)
         (AppGetChannelsForSchemePage app scheme page perPage).
Definition GetPreferencesForUser (userId : string) :=
  facade (CallGetPreferencesForUser userId) (AppGetPreferencesForUser app userId).
Definition GetPreferenceByCategoryForUser (userId category : string) :=
  facade (CallGetPreferenceByCategoryForUser userId category)
         (AppGetPreferenceByCategoryForUser app userId category).
Definition GetPreferenceByCategoryAndNameForUser (userId category name : string) :=
  facade (CallGetPreferenceByCategoryAndNameForUser userId category name)
         (AppGetPreferenceByCategoryAndNameForUser app userId category name).
Definition UpdatePreferences (userId : string) (prefs : Preferences) :=
  facade (CallUpdatePreferences userId prefs) (AppUpdatePreferences app userId prefs).
Definition DeletePreferences (userId : string) (prefs : Preferences) :=
  facade (CallDeletePreferences userId prefs) (AppDeletePreferences app userId prefs).
Definition GetSinglePost (postId : string) :=
  facade (CallGetSinglePost postId) (AppGetSinglePost app postId).

(** [v, err := f(...); if err != nil { c.Err = err; return }]. *)
Definition orReturnErr {A : Type} (m : H (A + AppError.t)) : H A :=
  res <- m ;;
  match res with
  | inl v => ret v
  | inr err => SetErr err ;; Return
  end.

(** [if err := f(...); err != nil { c.Err = err; return }]. *)
Definition orReturnErr_ (m : H (option AppError.t)) : H unit :=
  res <- m ;;
  match res with
  | None => ret tt
  | Some err => SetErr err ;; Return
  end.

(* ------------------------------------------------------------------- *)
(** *** api4/scheme.go *)
(* ------------------------------------------------------------------- *)

Definition createScheme (r : Request) : H unit :=
  match SchemeFromJson model (Body r) with
  | None => SetInvalidParam "scheme" ;; Return
  | Some scheme =>
      MakeAuditRecord "createScheme" Fail ;;
      Defer LogAuditRec (
        auditRec_AddMeta "scheme" (MetaScheme scheme) ;;
        lacks <- LicenseLacksCustomPermissionsSchemes ;;
        When lacks (
          SetErr (NewAppError "Api4.CreateScheme"
                              "api.scheme.create_scheme.license.error"
                              [] "" StatusNotImplemented) ;;
          Return) ;;
        granted <- SessionHasPermissionTo
                     PermissionSysconsoleWriteUserManagementPermissions ;;
        When (negb granted) (
          SetPermissionError PermissionSysconsoleWriteUserManagementPermissions ;;
          Return) ;;
        scheme <- orReturnErr (CreateScheme scheme) ;;
        auditRec_Success ;;
        auditRec_AddMeta "scheme" (MetaScheme scheme) ;;
        w_WriteHeader StatusCreated ;;
        w_Write (JsonScheme scheme))
  end.

Definition getScheme (r : Request) : H unit :=
  RequireSchemeId ;;
  ReturnIfErr ;;
  granted <- SessionHasPermissionTo
               PermissionSysconsoleReadUserManagementPermissions ;;
  When (negb granted) (
    SetPermissionError PermissionSysconsoleReadUserManagementPermissions ;;
    Return) ;;
  params <- getParams ;;
  scheme <- orReturnErr (GetScheme (Params.SchemeId params)) ;;
  w_Write (JsonScheme scheme).

Definition getSchemes (r : Request) : H unit :=
  granted <- SessionHasPermissionTo
               PermissionSysconsoleReadUserManagementPermissions ;;
  When (negb granted) (
    SetPermissionError PermissionSysconsoleReadUserManagementPermissions ;;
    Return) ;;
  params <- getParams ;;
  let scope := Params.Scope params in
  When (negb (String.eqb scope "")
        && negb (String.eqb scope SchemeScopeTeam)
        && negb (String.eqb scope SchemeScopeChannel)) (
    SetInvalidParam "scope" ;;
    Return) ;;
  schemes <- orReturnErr (GetSchemesPage (Params.Scope params)
                                         (Params.Page params)
                                         (Params.PerPage params)) ;;
  w_Write (JsonSchemes schemes).

Definition getTeamsForScheme (r : Request) : H unit :=
  RequireSchemeId ;;
  ReturnIfErr ;;
  granted <- SessionHasPermissionTo PermissionSysconsoleReadUserManagementTeams ;;
  When (negb granted) (
    SetPermissionError PermissionSysconsoleReadUserManagementTeams ;;
    Return) ;;
  params <- getParams ;;
  scheme <- orReturnErr (GetScheme (Params.SchemeId params)) ;;
  When (negb (String.eqb (Scheme.Scope scheme) SchemeScopeTeam)) (
    SetErr (NewAppError "Api4.GetTeamsForScheme"
                        "api.scheme.get_teams_for_scheme.scope.error"
                        [] "" StatusBadRequest) ;;
    Return) ;;
  teams <- orReturnErr (GetTeamsForSchemePage scheme (Params.Page params)
                                              (Params.PerPage params)) ;;
  w_Write (JsonTeams teams).

Definition getChannelsForScheme (r : Request) : H unit :=
  RequireSchemeId ;;
  ReturnIfErr ;;
  granted <- SessionHasPermissionTo
               PermissionSysconsoleReadUserManagementChannels ;;
  When (negb granted) (
    SetPermissionError PermissionSysconsoleReadUserManagementChannels ;;
    Return) ;;
  params <- getParams ;;
  scheme <- orReturnErr (GetScheme (Params.SchemeId params)) ;;
  When (negb (String.eqb (Scheme.Scope scheme) SchemeScopeChannel)) (
    SetErr (NewAppError "Api4.GetChannelsForScheme"
                        "api.scheme.get_channels_for_scheme.scope.error"
                        [] "" StatusBadRequest) ;;
    Return) ;;
  channels <- orReturnErr (GetChannelsForSchemePage scheme (Params.Page params)
                                                    (Params.PerPage params)) ;;
  w_Write (JsonChannels channels).

Definition patchScheme (r : Request) : H unit :=
  RequireSchemeId ;;
  ReturnIfErr ;;
  match SchemePatchFromJson model (Body r) with
  | None => SetInvalidParam "scheme" ;; Return
  | Some patch =>
      MakeAuditRecord "patchScheme" Fail ;;
      Defer LogAuditRec (
        lacks <- LicenseLacksCustomPermissionsSchemes ;;
        When lacks (
          SetErr (NewAppError "Api4.PatchScheme"
                              "api.scheme.patch_scheme.license.error"
                              [] "" StatusNotImplemented) ;;
          Return) ;;
        params <- getParams ;;
        scheme <- orReturnErr (GetScheme (Params.SchemeId params)) ;;
        auditRec_AddMeta "scheme" (MetaScheme scheme) ;;
        granted <- SessionHasPermissionTo
                     PermissionSysconsoleWriteUserManagementPermissions ;;
        When (negb granted) (
          SetPermissionError PermissionSysconsoleWriteUserManagementPermissions ;;
          Return) ;;
        scheme <- orReturnErr (PatchScheme scheme patch) ;;
        auditRec_AddMeta "patch" (MetaScheme scheme) ;;
        auditRec_Success ;;
        LogAudit "" ;;
        w_Write (JsonScheme scheme))
  end.

Definition deleteScheme (r : Request) : H unit :=
  RequireSchemeId ;;
  ReturnIfErr ;;
  MakeAuditRecord "deleteScheme" Fail ;;
  Defer LogAuditRec (
    lacks <- LicenseLacksCustomPermissionsSchemes ;;
    When lacks (
      SetErr (NewAppError "Api4.DeleteScheme"
                          "api.scheme.delete_scheme.license.error"
                          [] "" StatusNotImplemented) ;;
      Return) ;;
    granted <- SessionHasPermissionTo
                 PermissionSysconsoleWriteUserManagementPermissions ;;
    When (negb granted) (
      SetPermissionError PermissionSysconsoleWriteUserManagementPermissions ;;
      Return) ;;
    params <- getParams ;;
    scheme <- orReturnErr (DeleteScheme (Params.SchemeId params)) ;;
    auditRec_Success ;;
    auditRec_AddMeta "scheme" (MetaScheme scheme) ;;
    ReturnStatusOK).

(* ------------------------------------------------------------------- *)
(** *** api4/preference.go *)
(* ------------------------------------------------------------------- *)

Definition getPreferences (r : Request) : H unit :=
  RequireUserId ;;
  ReturnIfErr ;;
  params <- getParams ;;
  granted <- SessionHasPermissionToUser (Params.UserId params) ;;
  When (negb granted) (
    SetPermissionError PermissionEditOtherUsers ;;
    Return) ;;
  preferences <- orReturnErr (GetPreferencesForUser (Params.UserId params)) ;;
  w_Write (JsonPreferences preferences).

Definition getPreferencesByCategory (r : Request) : H unit :=
  (RequireUserId ;; RequireCategory) ;;
  ReturnIfErr ;;
  params <- getParams ;;
  granted <- SessionHasPermissionToUser (Params.UserId params) ;;
  When (negb granted) (
    SetPermissionError PermissionEditOtherUsers ;;
    Return) ;;
  preferences <- orReturnErr (GetPreferenceByCategoryForUser
                                (Params.UserId params) (Params.Category params)) ;;
  w_Write (JsonPreferences preferences).

Definition getPreferenceByCategoryAndName (r : Request) : H unit :=
  (RequireUserId ;; RequireCategory ;; RequirePreferenceName) ;;
  ReturnIfErr ;;
  params <- getParams ;;
  granted <- SessionHasPermissionToUser (Params.UserId params) ;;
  When (negb granted) (
    SetPermissionError PermissionEditOtherUsers ;;
    Return) ;;
  preferences <- orReturnErr (GetPreferenceByCategoryAndNameForUser
                                (Params.UserId params) (Params.Category params)
                                (Params.PreferenceName params)) ;;
  w_Write (JsonPreference preferences).

(** The [for _, pref := range preferences] loop of [updatePreferences],
    with [sanitizedPreferences] as accumulator. *)
Fixpoint sanitizePreferences (preferences sanitizedPreferences : Preferences)
  : H Preferences :=
  match preferences with
  | [] => ret sanitizedPreferences
  | pref :: rest =>
      When (String.eqb (Preference.Category pref) PreferenceCategoryFlaggedPost) (
        res <- GetSinglePost (Preference.Name pref) ;;
        match res with
        | inr _ => SetInvalidParam "preference.name" ;; Return
        | inl post =>
            granted <- SessionHasPermissionToChannel (Post.ChannelId post)
                                                     PermissionReadChannel ;;
            When (negb granted) (
              SetPermissionError PermissionReadChannel ;;
              Return)
        end) ;;
      sanitizePreferences rest (sanitizedPreferences ++ [pref])%list
  end.

Definition updatePreferences (r : Request) : H unit :=
  RequireUserId ;;
  ReturnIfErr ;;
  MakeAuditRecord "updatePreferences" Fail ;;
  Defer LogAuditRec (
    params <- getParams ;;
    granted <- SessionHasPermissionToUser (Params.UserId params) ;;
    When (negb granted) (
      SetPermissionError PermissionEditOtherUsers ;;
      Return) ;;
    match PreferencesFromJson model (Body r) with
    | inr _ => SetInvalidParam "preferences" ;; Return
    | inl preferences =>
        sanitizedPreferences <- sanitizePreferences preferences [] ;;
        orReturnErr_ (UpdatePreferences (Params.UserId params)
                                        sanitizedPreferences) ;;
        auditRec_Success ;;
        ReturnStatusOK
    end).

Definition deletePreferences (r : Request) : H unit :=
  RequireUserId ;;
  ReturnIfErr ;;
  MakeAuditRecord "deletePreferences" Fail ;;
  Defer LogAuditRec (
    params <- getParams ;;
    granted <- SessionHasPermissionToUser (Params.UserId params) ;;
    When (negb granted) (
      SetPermissionError PermissionEditOtherUsers ;;
      Return) ;;
    match PreferencesFromJson model (Body r) with
    | inr _ => SetInvalidParam "preferences" ;; Return
    | inl preferences =>
        orReturnErr_ (DeletePreferences (Params.UserId params) preferences) ;;
        auditRec_Success ;;
        ReturnStatusOK
    end).

(** The operations [InitScheme] and [InitPreference] route. *)
Inductive Op :=
| OpCreateScheme | OpGetScheme | OpGetSchemes | OpGetTeamsForScheme
| OpGetChannelsForScheme | OpPatchScheme | OpDeleteScheme
| OpGetPreferences | OpGetPreferencesByCategory
| OpGetPreferenceByCategoryAndName | OpUpdatePreferences | OpDeletePreferences.

Definition handler (op : Op) : Request -> H unit :=
  match op with
  | OpCreateScheme => createScheme
  | OpGetScheme => getScheme
  | OpGetSchemes => getSchemes
  | OpGetTeamsForScheme => getTeamsForScheme
  | OpGetChannelsForScheme => getChannelsForScheme
  | OpPatchScheme => patchScheme
  | OpDeleteScheme => deleteScheme
  | OpGetPreferences => getPreferences
  | OpGetPreferencesByCategory => getPreferencesByCategory
  | OpGetPreferenceByCategoryAndName => getPreferenceByCategoryAndName
  | OpUpdatePreferences => updatePreferences
  | OpDeletePreferences => deletePreferences
  end.

(** One request: the handler run on a fresh context. *)
Definition serve (op : Op) (r : Request) (params : Params.t)
           (session : Session.t) : State :=
  snd (handler op r (init params session)).

End Handlers.

(* ===================================================================== *)
(** ** Package api4: what a trace shows *)
(* ===================================================================== *)

Definition facade_calls (tr : list Event) : list Call :=
  flat_map (fun e => match e with Facade call => [call] | _ => [] end) tr.

Definition permission_checks (tr : list Event) : list (Check * bool) :=
  flat_map (fun e => match e with PermissionCheck chk b => [(chk, b)] | _ => [] end) tr.

Definition err_writes (tr : list Event) : list AppError.t :=
  flat_map (fun e => match e with ErrSet err => [err] | _ => [] end) tr.

Definition begun (tr : list Event) : list (string * Status) :=
  flat_map (fun e => match e with AuditBegin n st => [(n, st)] | _ => [] end) tr.

Definition emitted (tr : list Event) : list Record_.t :=
  flat_map (fun e => match e with AuditEmit rec => [rec] | _ => [] end) tr.

Definition writes (tr : list Event) : list Event :=
  filter (fun e => match e with WriteHeader _ | Write _ => true | _ => false end) tr.

(** A permission check the oracle answers with no. *)
Definition is_denial (e : Event) : bool :=
  match e with PermissionCheck _ false => true | _ => false end.

Definition denied (tr : list Event) : bool := existsb is_denial tr.

(** The events before and after the first failed permission check. *)
Fixpoint before_denial (tr : list Event) : list Event :=
  match tr with
  | [] => []
  | e :: rest => if is_denial e then [] else e :: before_denial rest
  end.

Fixpoint after_denial (tr : list Event) : list Event :=
  match tr with
  | [] => []
  | e :: rest => if is_denial e then rest else after_denial rest
  end.

(** Every permission check of the trace comes after a license check
    that passed ([licensed]: one has been seen). *)
Fixpoint license_first (licensed : bool) (tr : list Event) : bool :=
  match tr with
  | [] => true
  | LicenseCheck true :: rest => license_first true rest
  | PermissionCheck _ _ :: rest => licensed && license_first licensed rest
  | _ :: rest => license_first licensed rest
  end.

(** Facade calls that only load a resource the handler inspects. *)
Definition is_load (call : Call) : bool :=
  match call with
  | CallGetScheme _ | CallGetSinglePost _ => true
  | _ => false
  end.

(** The error, if any, the facade answers a call with. *)
Definition err_of {A : Type} (res : A + AppError.t) : option AppError.t :=
  match res with inl _ => None | inr err => Some err end.

Definition facade_error (app : App) (call : Call) : option AppError.t :=
  match call with
  | CallCreateScheme s => err_of (AppCreateScheme app s)
  | CallGetScheme id => err_of (AppGetScheme app id)
  | CallPatchScheme s p => err_of (AppPatchScheme app s p)
  | CallDeleteScheme id => err_of (AppDeleteScheme app id)
  | CallGetSchemesPage sc pg pp => err_of (AppGetSchemesPage app sc pg pp)
  | CallGetTeamsForSchemePage s pg pp => err_of (AppGetTeamsForSchemePage app s pg pp)
  | CallGetChannelsForSchemePage s pg pp =>
      err_of (AppGetChannelsForSchemePage app s pg pp)
  | CallGetPreferencesForUser u => err_of (AppGetPreferencesForUser app u)
  | CallGetPreferenceByCategoryForUser u cat =>
      err_of (AppGetPreferenceByCategoryForUser app u cat)
  | CallGetPreferenceByCategoryAndNameForUser u cat n =>
      err_of (AppGetPreferenceByCategoryAndNameForUser app u cat n)
  | CallUpdatePreferences u ps => AppUpdatePreferences app u ps
  | CallDeletePreferences u ps => AppDeletePreferences app u ps
  | CallGetSinglePost id => err_of (AppGetSinglePost app id)
  end.

(** The handlers that call [MakeAuditRecord]. *)
Definition audits (op : Op) : bool :=
  match op with
  | OpCreateScheme | OpPatchScheme | OpDeleteScheme
  | OpUpdatePreferences | OpDeletePreferences => true
  | _ => false
  end.

Definition op_name (op : Op) : string :=
  match op with
  | OpCreateScheme => "createScheme"
  | OpGetScheme => "getScheme"
  | OpGetSchemes => "getSchemes"
  | OpGetTeamsForScheme => "getTeamsForScheme"
  | OpGetChannelsForScheme => "getChannelsForScheme"
  | OpPatchScheme => "patchScheme"
  | OpDeleteScheme => "deleteScheme"
  | OpGetPreferences => "getPreferences"
  | OpGetPreferencesByCategory => "getPreferencesByCategory"
  | OpGetPreferenceByCategoryAndName => "getPreferenceByCategoryAndName"
  | OpUpdatePreferences => "updatePreferences"
  | OpDeletePreferences => "deletePreferences"
  end.

(** The handlers behind the license gate. *)
Definition gated (op : Op) : bool :=
  match op with
  | OpCreateScheme | OpPatchScheme | OpDeleteScheme => true
  | _ => false
  end.

(** The [Require...] chain each handler opens with: accessor and
    identifier, in the order of the calls. *)
Definition required (op : Op) : list ((Params.t -> string) * string) :=
  match op with
  | OpCreateScheme | OpGetSchemes => []
  | OpGetScheme | OpGetTeamsForScheme | OpGetChannelsForScheme
  | OpPatchScheme | OpDeleteScheme => [(Params.SchemeId, "scheme_id")]
  | OpGetPreferences | OpUpdatePreferences | OpDeletePreferences =>
      [(Params.UserId, "user_id")]
  | OpGetPreferencesByCategory =>
      [(Params.UserId, "user_id"); (Params.Category, "category")]
  | OpGetPreferenceByCategoryAndName =>
      [(Params.UserId, "user_id"); (Params.Category, "category");
       (Params.PreferenceName, "preference_name")]
  end.

(** The identifier of the first empty field of a chain. *)
Fixpoint first_missing (chain : list ((Params.t -> string) * string))
         (params : Params.t) : option string :=
  match chain with
  | [] => None
  | (field, identifier) :: rest =>
      if String.eqb (field params) "" then Some identifier
      else first_missing rest params
  end.

(** The request gets past the checks that precede [MakeAuditRecord]
    (for the gated handlers the license check comes next). *)
Definition reaches_audit (model : Decoders) (op : Op) (r : Request)
           (params : Params.t) : bool :=
  match op with
  | OpCreateScheme =>
      match SchemeFromJson model (Body r) with Some _ => true | None => false end
  | OpPatchScheme =>
      negb (String.eqb (Params.SchemeId params) "")
      && match SchemePatchFromJson model (Body r) with
         | Some _ => true
         | None => false
         end
  | OpDeleteScheme => negb (String.eqb (Params.SchemeId params) "")
  | OpUpdatePreferences | OpDeletePreferences =>
      negb (String.eqb (Params.UserId params) "")
  | _ => false
  end.

Definition license_lacking (app : App) : bool :=
  match SrvLicense app with
  | None => true
  | Some l => negb (CustomPermissionsSchemes l)
  end.

Definition is_flagged (pref : Preference.t) : bool :=
  String.eqb (Preference.Category pref) PreferenceCategoryFlaggedPost.

(** The post a flagged entry names exists. *)
Definition resolves (app : App) (pref : Preference.t) : bool :=
  match AppGetSinglePost app (Preference.Name pref) with
  | inl _ => true
  | inr _ => false
  end.

(** The events of the [updatePreferences] loop over a list, and the
    error it stops with, if it does. *)
Fixpoint flaggedPostScan (app : App) (session : Session.t)
         (preferences : Preferences) : list Event * option AppError.t :=
  match preferences with
  | [] => ([], None)
  | pref :: rest =>
      if is_flagged pref then
        match AppGetSinglePost app (Preference.Name pref) with
        | inr _ =>
            let e := NewAppError "Context" "preference.name" [] "" StatusBadRequest in
            ([Facade (CallGetSinglePost (Preference.Name pref)); ErrSet e], Some e)
        | inl post =>
            let chk := ToChannel (Post.ChannelId post) PermissionReadChannel in
            if AppSessionHasPermissionToChannel app session (Post.ChannelId post)
                                                PermissionReadChannel
            then
              let (evs, stop) := flaggedPostScan app session rest in
              (Facade (CallGetSinglePost (Preference.Name pref))
                 :: PermissionCheck chk true :: evs, stop)
            else
              let e := NewAppError "Permissions" (Permission_Id PermissionReadChannel)
                                   [] "" StatusForbidden in
              ([Facade (CallGetSinglePost (Preference.Name pref));
                PermissionCheck chk false; ErrSet e], Some e)
        end
      else flaggedPostScan app session rest
  end.

(** The two errors the loop can stop with. *)
Definition invalidPreferenceName : AppError.t :=
  NewAppError "Context" "preference.name" [] "" StatusBadRequest.

Definition readChannelDenied : AppError.t :=
  NewAppError "Permissions" (Permission_Id PermissionReadChannel) [] "" StatusForbidden.

(** An event of a loop round that goes on: a post lookup that found the
    post, or a channel check that passed. *)
Definition loop_event (app : App) (e : Event) : bool :=
  match e with
  | Facade (CallGetSinglePost n) =>
      match AppGetSinglePost app n with inl _ => true | inr _ => false end
  | PermissionCheck (ToChannel _ _) true => true
  | _ => false
  end.

(** The three shapes of the loop's events: it runs through, or stops at
    a lookup that fails, or stops at a channel the session cannot
    read. *)
Inductive scan_outcome (app : App) : list Event -> option AppError.t -> Prop :=
| scan_through (evs : list Event) :
    forallb (loop_event app) evs = true ->
    scan_outcome app evs None
| scan_post_missing (pre : list Event) (n : string) (err : AppError.t) :
    forallb (loop_event app) pre = true ->
    AppGetSinglePost app n = inr err ->
    scan_outcome app
      (pre ++ [Facade (CallGetSinglePost n); ErrSet invalidPreferenceName])
      (Some invalidPreferenceName)
| scan_channel_denied (pre : list Event) (n : string) (post : Post.t) :
    forallb (loop_event app) pre = true ->
    AppGetSinglePost app n = inl post ->
    scan_outcome app
      (pre ++ [Facade (CallGetSinglePost n);
               PermissionCheck (ToChannel (Post.ChannelId post) PermissionReadChannel)
                               false;
               ErrSet readChannelDenied])
      (Some readChannelDenied).

(* ===================================================================== *)
(** ** Package api4: a small deployment to run requests on *)
(* ===================================================================== *)

Definition notFound (id : string) : AppError.t :=
  NewAppError "SqlStore.Get" id [] "" 404.

Definition teamScheme : Scheme.t := Scheme.mk "scheme1" "Team scheme" "team".
Definition channelScheme : Scheme.t := Scheme.mk "scheme2" "Channel scheme" "channel".

(** License [lic]; the session "admin" holds every permission, any
    session may edit its own user and read channel "town-square";
    schemes "scheme1" (team) and "scheme2" (channel); posts "post1" in
    "town-square" and "post2" in "private"; the page queries fail when
    [pagesDown]. *)
Definition demoApp (lic : option License) (pagesDown : bool) : App :=
  {| SrvLicense := lic;
     AppSessionHasPermissionTo := fun s _ => String.eqb (Session.Id s) "admin";
     AppSessionHasPermissionToUser :=
       fun s u => String.eqb (Session.Id s) "admin" || String.eqb (Session.UserId s) u;
     AppSessionHasPermissionToChannel := fun _ ch _ => String.eqb ch "town-square";
     AppCreateScheme := fun s => inl (Scheme.mk "scheme3" (Scheme.Name s) (Scheme.Scope s));
     AppGetScheme :=
       fun id => if String.eqb id "scheme1" then inl teamScheme
                 else if String.eqb id "scheme2" then inl channelScheme
                 else inr (notFound "app.scheme.get.app_error");
     AppPatchScheme :=
       fun s p => inl (Scheme.mk (Scheme.Id s)
                                 (match SchemePatch.Name p with
                                  | Some n => n
                                  | None => Scheme.Name s
                                  end)
                                 (Scheme.Scope s));
     AppDeleteScheme :=
       fun id => if String.eqb id "scheme1" then inl teamScheme
                 else inr (notFound "app.scheme.delete.app_error");
     AppGetSchemesPage := fun _ _ _ => inl [teamScheme; channelScheme];
     AppGetTeamsForSchemePage :=
       fun _ _ _ => if pagesDown
                    then inr (NewAppError "SqlStore" "app.team.get.app_error" [] "" 500)
                    else inl [Team.mk "team1" "scheme1"];
     AppGetChannelsForSchemePage :=
       fun _ _ _ => if pagesDown
                    then inr (NewAppError "SqlStore" "app.channel.get.app_error" [] "" 500)
                    else inl [Channel.mk "channel1" "scheme2"];
     AppGetPreferencesForUser := fun _ => inl [];
     AppGetPreferenceByCategoryForUser := fun _ _ => inl [];
     AppGetPreferenceByCategoryAndNameForUser :=
       fun u cat n => inl (Preference.mk u cat n "");
     AppUpdatePreferences := fun _ _ => None;
     AppDeletePreferences := fun _ _ => None;
     AppGetSinglePost :=
       fun id => if String.eqb id "post1" then inl (Post.mk "post1" "town-square")
                 else if String.eqb id "post2" then inl (Post.mk "post2" "private")
                 else inr (notFound "app.post.get.app_error") |}.

Definition licensed : option License := Some {| CustomPermissionsSchemes := true |}.

Definition themePref : Preference.t := Preference.mk "user1" "theme" "" "dark".
Definition flagPost1 : Preference.t := Preference.mk "user1" "flagged_post" "post1" "true".
Definition flagPost2 : Preference.t := Preference.mk "user1" "flagged_post" "post2" "true".
Definition flagGone : Preference.t := Preference.mk "user1" "flagged_post" "post9" "true".

(** Decoders that read a few fixed bodies. *)
Definition demoModel : Decoders :=
  {| SchemeFromJson :=
       fun body => if String.eqb body "" then None
                   else Some (Scheme.mk "" body "team");
     SchemePatchFromJson :=
       fun body => if String.eqb body "" then None
                   else Some (SchemePatch.mk (Some body) None);
     PreferencesFromJson :=
       fun body =>
         if String.eqb body "theme,flag:post2" then inl [themePref; flagPost2]
         else if String.eqb body "flag:post9,flag:post2" then inl [flagGone; flagPost2]
         else if String.eqb body "theme,flag:post1" then inl [themePref; flagPost1]
         else inr "unexpected end of JSON input" |}.

Definition admin : Session.t := Session.mk "admin" "user0".
Definition user1 : Session.t := Session.mk "session1" "user1".

Definition params0 : Params.t := Params.mk "" "" "" "" "" 0 60.
Definition forUser (u : string) : Params.t := Params.mk u "" "" "" "" 0 60.
Definition forScheme (id : string) : Params.t := Params.mk "" id "" "" "" 0 60.

(* ===================================================================== *)
(** ** Package api4: routes, and more of what a trace shows *)
(* ===================================================================== *)

(** The two wrappers the routes are registered with. *)
Inductive Wrapper := ApiSessionRequired | ApiSessionRequiredTrustRequester.

(** One [Handle(path, wrapper(handler)).Methods(method)] line. *)
Record Route := {
  Path : string;
  Wrapped : Wrapper;
  Handler : Op;
  Method : string
}.

(** The routes under [api.BaseRoutes.Schemes], in the order of the
    source. *)
Definition InitScheme : list Route :=
  [ {| Path := ""; Wrapped := ApiSessionRequired;
       Handler := OpGetSchemes; Method := "GET" |};
    {| Path := ""; Wrapped := ApiSessionRequired;
       Handler := OpCreateScheme; Method := "POST" |};
    {| Path := "/{scheme_id:[A-Za-z0-9]+}"; Wrapped := ApiSessionRequired;
       Handler := OpDeleteScheme; Method := "DELETE" |};
    {| Path := "/{scheme_id:[A-Za-z0-9]+}";
       Wrapped := ApiSessionRequiredTrustRequester;
       Handler := OpGetScheme; Method := "GET" |};
    {| Path := "/{scheme_id:[A-Za-z0-9]+}/patch"; Wrapped := ApiSessionRequired;
       Handler := OpPatchScheme; Method := "PUT" |};
    {| Path := "/{scheme_id:[A-Za-z0-9]+}/teams";
       Wrapped := ApiSessionRequiredTrustRequester;
       Handler := OpGetTeamsForScheme; Method := "GET" |};
    {| Path := "/{scheme_id:[A-Za-z0-9]+}/channels";
       Wrapped := ApiSessionRequiredTrustRequester;
       Handler := OpGetChannelsForScheme; Method := "GET" |} ].

(** The routes under [api.BaseRoutes.Preferences]. *)
Definition InitPreference : list Route :=
  [ {| Path := ""; Wrapped := ApiSessionRequired;
       Handler := OpGetPreferences; Method := "GET" |};
    {| Path := ""; Wrapped := ApiSessionRequired;
       Handler := OpUpdatePreferences; Method := "PUT" |};
    {| Path := "/delete"; Wrapped := ApiSessionRequired;
       Handler := OpDeletePreferences; Method := "POST" |};
    {| Path := "/{category:[A-Za-z0-9_]+}"; Wrapped := ApiSessionRequired;
       Handler := OpGetPreferencesByCategory; Method := "GET" |};
    {| Path := "/{category:[A-Za-z0-9_]+}/name/{preference_name:[A-Za-z0-9_]+}";
       Wrapped := ApiSessionRequired;
       Handler := OpGetPreferenceByCategoryAndName; Method := "GET" |} ].

(** Facade calls that change what is stored. *)
Definition is_mutation (call : Call) : bool :=
  match call with
  | CallCreateScheme _ | CallPatchScheme _ _ | CallDeleteScheme _
  | CallUpdatePreferences _ _ | CallDeletePreferences _ _ => true
  | _ => false
  end.

Definition mutations (tr : list Event) : list Call :=
  filter is_mutation (facade_calls tr).

(** The events after the first setting of the error. *)
Fixpoint after_error (tr : list Event) : list Event :=
  match tr with
  | [] => []
  | ErrSet _ :: rest => rest
  | _ :: rest => after_error rest
  end.

(** Events a handler that only reads may produce. *)
Definition is_read_event (e : Event) : bool :=
  match e with
  | Facade call => negb (is_mutation call)
  | PermissionCheck _ _ | ErrSet _ | Write _ => true
  | _ => false
  end.

(** The grant that stands behind a facade call of a handler. *)
Definition authorized (app : App) (op : Op) (params : Params.t)
           (session : Session.t) (call : Call) : Prop :=
  match call with
  | CallCreateScheme _ | CallPatchScheme _ _ | CallDeleteScheme _ =>
      license_lacking app = false
      /\ AppSessionHasPermissionTo
           app session PermissionSysconsoleWriteUserManagementPermissions = true
  | CallGetScheme _ =>
      match op with
      | OpGetScheme =>
          AppSessionHasPermissionTo
            app session PermissionSysconsoleReadUserManagementPermissions = true
      | OpGetTeamsForScheme =>
          AppSessionHasPermissionTo
            app session PermissionSysconsoleReadUserManagementTeams = true
      | OpGetChannelsForScheme =>
          AppSessionHasPermissionTo
            app session PermissionSysconsoleReadUserManagementChannels = true
      | OpPatchScheme => license_lacking app = false
      | _ => False
      end
  | CallGetSchemesPage _ _ _ =>
      AppSessionHasPermissionTo
        app session PermissionSysconsoleReadUserManagementPermissions = true
  | CallGetTeamsForSchemePage _ _ _ =>
      AppSessionHasPermissionTo
        app session PermissionSysconsoleReadUserManagementTeams = true
  | CallGetChannelsForSchemePage _ _ _ =>
      AppSessionHasPermissionTo
        app session PermissionSysconsoleReadUserManagementChannels = true
  | CallGetPreferencesForUser u
  | CallGetPreferenceByCategoryForUser u _
  | CallGetPreferenceByCategoryAndNameForUser u _ _
  | CallUpdatePreferences u _
  | CallDeletePreferences u _ =>
      AppSessionHasPermissionToUser app session u = true
  | CallGetSinglePost _ =>
      AppSessionHasPermissionToUser app session (Params.UserId params) = true
  end.

(** Where the arguments of a facade call come from. *)
Definition from_request (app : App) (model : Decoders) (r : Request)
           (params : Params.t) (call : Call) : Prop :=
  match call with
  | CallCreateScheme s => SchemeFromJson model (Body r) = Some s
  | CallGetScheme id | CallDeleteScheme id =>
      id = Params.SchemeId params /\ id <> ""
  | CallPatchScheme s p =>
      AppGetScheme app (Params.SchemeId params) = inl s
      /\ SchemePatchFromJson model (Body r) = Some p
  | CallGetSchemesPage scope page perPage =>
      scope = Params.Scope params
      /\ (scope = "" \/ scope = SchemeScopeTeam \/ scope = SchemeScopeChannel)
      /\ page = Params.Page params /\ perPage = Params.PerPage params
  | CallGetTeamsForSchemePage s page perPage =>
      AppGetScheme app (Params.SchemeId params) = inl s
      /\ Scheme.Scope s = SchemeScopeTeam
      /\ page = Params.Page params /\ perPage = Params.PerPage params
  | CallGetChannelsForSchemePage s page perPage =>
      AppGetScheme app (Params.SchemeId params) = inl s
      /\ Scheme.Scope s = SchemeScopeChannel
      /\ page = Params.Page params /\ perPage = Params.PerPage params
  | CallGetPreferencesForUser u => u = Params.UserId params /\ u <> ""
  | CallGetPreferenceByCategoryForUser u category =>
      u = Params.UserId params /\ u <> ""
      /\ category = Params.Category params /\ category <> ""
  | CallGetPreferenceByCategoryAndNameForUser u category name =>
      u = Params.UserId params /\ u <> ""
      /\ category = Params.Category params /\ category <> ""
      /\ name = Params.PreferenceName params /\ name <> ""
  | CallUpdatePreferences u prefs | CallDeletePreferences u prefs =>
      u = Params.UserId params /\ u <> ""
      /\ PreferencesFromJson model (Body r) = inl prefs
  | CallGetSinglePost postId =>
      exists prefs pref,
        PreferencesFromJson model (Body r) = inl prefs
        /\ In pref prefs /\ is_flagged pref = true
        /\ postId = Preference.Name pref
  end.

(** The post a flagged entry names exists and lies in a channel the
    session may read. *)
Definition readable (app : App) (session : Session.t) (pref : Preference.t) : bool :=
  match AppGetSinglePost app (Preference.Name pref) with
  | inl post =>
      AppSessionHasPermissionToChannel app session (Post.ChannelId post)
                                       PermissionReadChannel
  | inr _ => false
  end.

(** The post lookups a list of preferences can cause, in its order. *)
Definition lookups (prefs : Preferences) : list Call :=
  map (fun p => CallGetSinglePost (Preference.Name p)) (filter is_flagged prefs).

(** The first permission check of a trace that failed. *)
Fixpoint first_denied (tr : list Event) : option Check :=
  match tr with
  | [] => None
  | PermissionCheck chk false :: _ => Some chk
  | _ :: rest => first_denied rest
  end.

(** The permission a failed check is reported under. *)
Definition reported_permission (chk : Check) : Permission :=
  match chk with
  | ToPermission p => p
  | ToUser _ => PermissionEditOtherUsers
  | ToChannel _ p => p
  end.

(** The [c.LogAudit] entries of a trace. *)
Definition legacy_audits (tr : list Event) : list string :=
  flat_map (fun e => match e with LegacyAudit info => [info] | _ => [] end) tr.

(** What the facade returns for the parameters of a reading request,
    as the payload the handler writes. *)
Definition read_answer (app : App) (op : Op) (params : Params.t) : option Payload :=
  match op with
  | OpGetScheme =>
      match AppGetScheme app (Params.SchemeId params) with
      | inl scheme => Some (JsonScheme scheme)
      | inr _ => None
      end
  | OpGetSchemes =>
      match AppGetSchemesPage app (Params.Scope params) (Params.Page params)
                              (Params.PerPage params) with
      | inl schemes => Some (JsonSchemes schemes)
      | inr _ => None
      end
  | OpGetTeamsForScheme =>
      match AppGetScheme app (Params.SchemeId params) with
      | inl scheme =>
          match AppGetTeamsForSchemePage app scheme (Params.Page params)
                                         (Params.PerPage params) with
          | inl teams => Some (JsonTeams teams)
          | inr _ => None
          end
      | inr _ => None
      end
  | OpGetChannelsForScheme =>
      match AppGetScheme app (Params.SchemeId params) with
      | inl scheme =>
          match AppGetChannelsForSchemePage app scheme (Params.Page params)
                                            (Params.PerPage params) with
          | inl channels => Some (JsonChannels channels)
          | inr _ => None
          end
      | inr _ => None
      end
  | OpGetPreferences =>
      match AppGetPreferencesForUser app (Params.UserId params) with
      | inl preferences => Some (JsonPreferences preferences)
      | inr _ => None
      end
  | OpGetPreferencesByCategory =>
      match AppGetPreferenceByCategoryForUser app (Params.UserId params)
                                              (Params.Category params) with
      | inl preferences => Some (JsonPreferences preferences)
      | inr _ => None
      end
  | OpGetPreferenceByCategoryAndName =>
      match AppGetPreferenceByCategoryAndNameForUser
              app (Params.UserId params) (Params.Category params)
              (Params.PreferenceName params) with
      | inl preference => Some (JsonPreference preference)
      | inr _ => None
      end
  | _ => None
  end.

(** The metadata of the record [patchScheme] emits, by how far the
    request gets. *)
Definition patchScheme_meta (app : App) (session : Session.t)
           (params : Params.t) (patch : SchemePatch.t) : list (string * MetaValue) :=
  if license_lacking app then []
  else
    match AppGetScheme app (Params.SchemeId params) with
    | inr _ => []
    | inl scheme =>
        ("scheme", MetaScheme scheme)
          :: (if AppSessionHasPermissionTo
                   app session PermissionSysconsoleWriteUserManagementPermissions
              then match AppPatchScheme app scheme patch with
                   | inl patched => [("patch", MetaScheme patched)]
                   | inr _ => []
                   end
              else [])
    end.

End Api4.

(* ===================================================================== *)
(** * Properties: package users *)
(* ===================================================================== *)

Section UsersFacts.

Import Users.

Lemma ContainsAny_has_char_of (s chars : string) :
  ContainsAny s chars = true <-> has_char_of s chars.
Proof.
  unfold ContainsAny, has_char_of. rewrite existsb_exists.
  split.
  - intros [x [Hx Hc]]. apply existsb_exists in Hc as [y [Hy Hxy]].
    apply Ascii.eqb_eq in Hxy. subst y. now exists x.
  - intros [x [Hx Hc]]. exists x. split; [assumption|].
    apply existsb_exists. exists x. split; [assumption|].
    apply Ascii.eqb_refl.
Qed.

Lemma ContainsAny_false (s chars : string) :
  ContainsAny s chars = false -> ~ has_char_of s chars.
Proof.
  intros E Hc. apply ContainsAny_has_char_of in Hc. congruence.
Qed.

Lemma IsPasswordValidWithSettings_conforms
      (maxLen : Z) (lc uc nums syms password : string)
      (settings : PasswordSettings) :
  IsPasswordValidWithSettings maxLen lc uc nums syms password settings
  = if conforms maxLen lc uc nums syms password settings
    then None
    else Some (ErrInvalidPassword (policy_id settings)).
Proof.
  unfold IsPasswordValidWithSettings, conforms, policy_id, NewErrInvalidPassword.
  destruct settings as [minLen l u n sy]; cbn [MinimumLength Lowercase Uppercase Number Symbol].
  destruct ((len password <? minLen) || (len password >? maxLen));
    destruct l, u, n, sy; cbn [negb andb orb];
    repeat match goal with
           | |- context [ContainsAny password ?cs] =>
               destruct (ContainsAny password cs); cbn [negb andb orb]
           end;
    reflexivity.
Qed.

End UsersFacts.

(** C10. [IsPasswordValidWithSettings] returns nil exactly when the
    byte length lies in [MinimumLength, PasswordMaximumLength] and the
    password has a character of every enabled class; otherwise it
    returns the error whose id carries the suffix of every enabled
    flag, which the settings alone determine. *)
Theorem IsPasswordValidWithSettings_spec :
  forall (PasswordMaximumLength : Z)
         (LowercaseLetters UppercaseLetters NUMBERS SYMBOLS : string)
         (password : string) (settings : Users.PasswordSettings),
    let result :=
      Users.IsPasswordValidWithSettings PasswordMaximumLength LowercaseLetters
        UppercaseLetters NUMBERS SYMBOLS password settings in
    (result = None <->
       (Users.MinimumLength settings <= Users.len password <= PasswordMaximumLength)
       /\ (Users.Lowercase settings = true ->
           Users.has_char_of password LowercaseLetters)
       /\ (Users.Uppercase settings = true ->
           Users.has_char_of password UppercaseLetters)
       /\ (Users.Number settings = true -> Users.has_char_of password NUMBERS)
       /\ (Users.Symbol settings = true -> Users.has_char_of password SYMBOLS))
    /\ (result = None
        \/ result = Some (Users.ErrInvalidPassword (Users.policy_id settings))).
Proof.
  intros maxLen lc uc nums syms password settings result.
  subst result. rewrite IsPasswordValidWithSettings_conforms.
  split.
  - unfold Users.conforms.
    destruct (Users.len password <? Users.MinimumLength settings) eqn:Hmin;
      [apply Z.ltb_lt in Hmin | apply Z.ltb_ge in Hmin];
      (destruct (Users.len password >? maxLen) eqn:Hmax;
       [apply Z.gtb_lt in Hmax | rewrite Z.gtb_ltb in Hmax; apply Z.ltb_ge in Hmax]);
      cbn [negb orb andb];
      try (split; [discriminate | intros [Hlen _]; lia]).
    destruct (Users.Lowercase settings), (Users.Uppercase settings),
      (Users.Number settings), (Users.Symbol settings); cbn [negb orb andb];
      repeat match goal with
             | |- context [Users.ContainsAny password ?cs] =>
                 let E := fresh "E" in
                 destruct (Users.ContainsAny password cs) eqn:E;
                 [apply ContainsAny_has_char_of in E | apply ContainsAny_false in E];
                 cbn [negb orb andb]
             end;
      (split;
       [ intros Hres; try discriminate Hres;
         repeat split; try lia; intros; try assumption; try discriminate
       | intros [_ [H1 [H2 [H3 H4]]]]; try reflexivity; exfalso; auto ]).
  - destruct (Users.conforms maxLen lc uc nums syms password settings); auto.
Qed.

(** An instance of C10 with the upstream constants: "Passw0rd" meets
    the strict settings, so the conditions on the right hold. *)
Lemma IsPasswordValidWithSettings_spec_witness :
  Users.IsPasswordValidWithSettings 72 "abcdefghijklmnopqrstuvwxyz"
    "ABCDEFGHIJKLMNOPQRSTUVWXYZ" "0123456789" "!#$%&*+-=?@^_~"
    "Passw0rd" Users.strictSettings = None
  /\ Users.has_char_of "Passw0rd" "0123456789".
Proof.
  split; [reflexivity|].
  apply (proj1 (proj1 (IsPasswordValidWithSettings_spec 72
                  "abcdefghijklmnopqrstuvwxyz" "ABCDEFGHIJKLMNOPQRSTUVWXYZ"
                  "0123456789" "!#$%&*+-=?@^_~" "Passw0rd" Users.strictSettings))
         eq_refl); reflexivity.
Defined.

(** C1. [CheckUserPassword] gives two user records with the same
    Username the same result for every candidate password, whatever
    hash they store; it accepts exactly when [ValidateIAM] does, and
    [ValidateIAM] accepts exactly when the POST of the marshalled
    username and plaintext password to the endpoint returns a response
    with status 200. *)
Theorem CheckUserPassword_ignores_stored_hash :
  forall (json_Marshal : list (string * string) -> string)
         (http_Post : string -> string -> string -> Users.Response + string)
         (u1 u2 : Users.User) (password : string),
    Users.Username u1 = Users.Username u2 ->
    Users.CheckUserPassword json_Marshal http_Post u1 password
    = Users.CheckUserPassword json_Marshal http_Post u2 password
    /\ (Users.CheckUserPassword json_Marshal http_Post u1 password = None
        <-> Users.ValidateIAM json_Marshal http_Post (Users.Username u1) password
            = true)
    /\ (Users.ValidateIAM json_Marshal http_Post (Users.Username u1) password = true
        <-> exists resp,
              http_Post "https://iam.pajak.or.id/api/authentication"
                        "application/json"
                        (json_Marshal [("username", Users.Username u1);
                                       ("password", password)])
              = inl resp
              /\ Users.StatusCode resp = 200).
Proof.
  intros marshal post u1 u2 password Hname.
  unfold Users.CheckUserPassword. rewrite <- Hname.
  split; [reflexivity|]. split.
  - destruct (Users.ValidateIAM marshal post (Users.Username u1) password);
      cbn; split; congruence.
  - unfold Users.ValidateIAM.
    destruct (post _ _ _) as [resp | err].
    + destruct (Users.StatusCode resp =? 200) eqn:E.
      * apply Z.eqb_eq in E. split; [|reflexivity]. intros _. now exists resp.
      * apply Z.eqb_neq in E. split; [discriminate|].
        intros [resp' [Heq Hst]]. congruence.
    + split; [discriminate|]. intros [resp' [Heq _]]. discriminate.
Qed.

(** C1 at the two records for alice, which differ in the stored hash:
    the right password is accepted for both, a wrong one for neither. *)
Lemma CheckUserPassword_ignores_stored_hash_witness :
  Users.Password Users.alice <> Users.Password Users.aliceRehashed
  /\ Users.CheckUserPassword Users.demoMarshal Users.demoPost Users.alice "s3cret"
     = Users.CheckUserPassword Users.demoMarshal Users.demoPost
                               Users.aliceRehashed "s3cret"
  /\ Users.CheckUserPassword Users.demoMarshal Users.demoPost Users.aliceRehashed
                             "s3cret" = None.
Proof.
  split; [discriminate|].
  split.
  - exact (proj1 (CheckUserPassword_ignores_stored_hash Users.demoMarshal
                    Users.demoPost Users.alice Users.aliceRehashed "s3cret"
                    eq_refl)).
  - reflexivity.
Defined.

(* ===================================================================== *)
(** * Properties: package api4 *)
(* ===================================================================== *)

Import Api4.
Local Open Scope list_scope.

(** Unfolds a run of a handler down to the collaborators' answers. *)
Ltac crunch :=
  cbv beta iota zeta delta
      [serve handler init
       createScheme getScheme getSchemes getTeamsForScheme getChannelsForScheme
       patchScheme deleteScheme getPreferences getPreferencesByCategory
       getPreferenceByCategoryAndName updatePreferences deletePreferences
       bind ret Return When Defer log getParams SetErr SetInvalidParam
       SetPermissionError Require RequireUserId RequireSchemeId RequireCategory
       RequirePreferenceName ReturnIfErr MakeAuditRecord auditRec_AddMeta
       auditRec_Success LogAuditRec LogAudit w_WriteHeader w_Write ReturnStatusOK
       LicenseLacksCustomPermissionsSchemes SessionHasPermissionTo
       SessionHasPermissionToUser SessionHasPermissionToChannel facade
       CreateScheme GetScheme PatchScheme DeleteScheme GetSchemesPage
       GetTeamsForSchemePage GetChannelsForSchemePage GetPreferencesForUser
       GetPreferenceByCategoryForUser GetPreferenceByCategoryAndNameForUser
       UpdatePreferences DeletePreferences GetSinglePost orReturnErr orReturnErr_
       c auditRec trace Params Session Err
       Record_.Event Record_.Status Record_.Meta
       fst snd negb andb orb] in *;
  cbn [List.app] in *.

(** Turn boolean string tests into equations. *)
Ltac strings :=
  repeat match goal with
         | H : String.eqb _ _ = true |- _ => apply String.eqb_eq in H
         | H : String.eqb _ _ = false |- _ => apply String.eqb_neq in H
         end.

(** Case analysis on what a run branches on next: an answer of a
    collaborator or a test of a parameter. *)
Ltac split_on x :=
  lazymatch x with
  | context [match ?y with _ => _ end] => split_on y
  | _ => destruct x eqn:?
  end.

Ltac branch :=
  match goal with
  | H : context [match ?x with _ => _ end] |- _ => split_on x
  | |- context [match ?x with _ => _ end] => split_on x
  end; crunch; try discriminate.

Ltac run_all := crunch; repeat branch.

(** *** Observations distribute over concatenation *)

Lemma facade_calls_app (l1 l2 : list Event) :
  facade_calls (l1 ++ l2) = facade_calls l1 ++ facade_calls l2.
Proof. apply flat_map_app. Qed.

Lemma err_writes_app (l1 l2 : list Event) :
  err_writes (l1 ++ l2) = err_writes l1 ++ err_writes l2.
Proof. apply flat_map_app. Qed.

Lemma begun_app (l1 l2 : list Event) : begun (l1 ++ l2) = begun l1 ++ begun l2.
Proof. apply flat_map_app. Qed.

Lemma emitted_app (l1 l2 : list Event) :
  emitted (l1 ++ l2) = emitted l1 ++ emitted l2.
Proof. apply flat_map_app. Qed.

Lemma writes_app (l1 l2 : list Event) : writes (l1 ++ l2) = writes l1 ++ writes l2.
Proof. apply filter_app. Qed.

Lemma denied_app (l1 l2 : list Event) : denied (l1 ++ l2) = denied l1 || denied l2.
Proof. apply existsb_app. Qed.

Lemma before_denial_app (l1 l2 : list Event) :
  denied l1 = false -> before_denial (l1 ++ l2) = l1 ++ before_denial l2.
Proof.
  induction l1 as [|e l1 IH]; cbn; [reflexivity|].
  destruct (is_denial e); cbn; [discriminate|].
  intros H. now rewrite IH.
Qed.

Lemma after_denial_app (l1 l2 : list Event) :
  denied l1 = false -> after_denial (l1 ++ l2) = after_denial l2.
Proof.
  induction l1 as [|e l1 IH]; cbn; [reflexivity|].
  destruct (is_denial e); cbn; [discriminate|]. exact IH.
Qed.

(** *** The loop of updatePreferences *)

(** The events of rounds that go on: lookups that succeed and channel
    checks that pass, nothing else. *)
Lemma loop_events_quiet (app : App) (pre : list Event) :
  forallb (loop_event app) pre = true ->
  err_writes pre = [] /\ emitted pre = [] /\ begun pre = []
  /\ writes pre = [] /\ denied pre = false
  /\ Forall (fun call => (exists n, call = CallGetSinglePost n)
                         /\ facade_error app call = None)
            (facade_calls pre).
Proof.
  induction pre as [|e pre IH]; cbn [forallb].
  - intros _. repeat split; constructor.
  - intros H. apply andb_prop in H as [He Hpre].
    destruct (IH Hpre) as (I1 & I2 & I3 & I4 & I5 & I6).
    destruct e as [call|chk b| | | | | | | | |]; cbn in He; try discriminate.
    + destruct call; try discriminate.
      repeat split; try assumption.
      cbn. constructor; [|exact I6].
      split; [eexists; reflexivity|].
      cbn. destruct (AppGetSinglePost app postId); [reflexivity|discriminate].
    + destruct chk; try discriminate. destruct b; try discriminate.
      repeat split; assumption.
Qed.

Lemma loop_events_loads (app : App) (pre : list Event) :
  forallb (loop_event app) pre = true ->
  forallb is_load (facade_calls pre) = true.
Proof.
  induction pre as [|e pre IH]; cbn [forallb]; [reflexivity|].
  intros H. apply andb_prop in H as [He Hpre].
  destruct e as [call|chk b| | | | | | | | |]; cbn in He; try discriminate.
  - destruct call; try discriminate. cbn. now apply IH.
  - now apply IH.
Qed.

Lemma flaggedPostScan_outcome (app : App) (session : Session.t) (prefs : Preferences) :
  forall evs stop,
    flaggedPostScan app session prefs = (evs, stop) -> scan_outcome app evs stop.
Proof.
  induction prefs as [|pref rest IH]; intros evs stop; cbn [flaggedPostScan].
  - intros E. inversion E. now constructor.
  - destruct (is_flagged pref); [|apply IH].
    destruct (AppGetSinglePost app (Preference.Name pref)) as [post|err] eqn:Hpost.
    + destruct (AppSessionHasPermissionToChannel app session (Post.ChannelId post)
                                                  PermissionReadChannel).
      * destruct (flaggedPostScan app session rest) as [evs' stop'].
        intros E. inversion E. subst evs stop'. clear E.
        specialize (IH _ _ eq_refl).
        assert (Hhead : forall l, forallb (loop_event app) l = true ->
                  forallb (loop_event app)
                    (Facade (CallGetSinglePost (Preference.Name pref))
                       :: PermissionCheck
                            (ToChannel (Post.ChannelId post) PermissionReadChannel) true
                       :: l) = true).
        { intros l Hl. cbn. rewrite Hpost. exact Hl. }
        inversion IH as [evs0 Hq | pre n err Hq Hn | pre n post' Hq Hn]; subst.
        -- constructor. now apply Hhead.
        -- rewrite 2 app_comm_cons. econstructor; [now apply Hhead | eassumption].
        -- rewrite 2 app_comm_cons. econstructor; [now apply Hhead | eassumption].
      * intros E. inversion E.
        apply (scan_channel_denied app [] _ post); [reflexivity | assumption].
    + intros E. inversion E.
      apply (scan_post_missing app [] _ err); [reflexivity | assumption].
Qed.

(** The loop as a function of the list: what [sanitizePreferences] does
    to the state. *)
Lemma sanitizePreferences_scan (app : App) (prefs acc : Preferences) (s : State) :
  sanitizePreferences app prefs acc s
  = match flaggedPostScan app (Session (c s)) prefs with
    | (evs, None) =>
        (Some (acc ++ prefs)%list,
         {| c := c s; auditRec := auditRec s; trace := trace s ++ evs |})
    | (evs, Some e) =>
        (None,
         {| c := {| Params := Params (c s); Session := Session (c s); Err := Some e |};
            auditRec := auditRec s;
            trace := trace s ++ evs |})
    end.
Proof.
  revert acc s. induction prefs as [|pref rest IH]; intros acc s.
  - cbn. rewrite 2 app_nil_r. now destruct s.
  - cbn [sanitizePreferences flaggedPostScan]. unfold is_flagged.
    unfold bind at 1.
    destruct (String.eqb (Preference.Category pref) PreferenceCategoryFlaggedPost).
    + cbn [When]. unfold bind at 1, GetSinglePost at 1, facade at 1.
      destruct (AppGetSinglePost app (Preference.Name pref)) as [post|err].
      * unfold bind at 1, SessionHasPermissionToChannel at 1.
        cbn [log c Session auditRec trace].
        destruct (AppSessionHasPermissionToChannel app (Session (c s))
                    (Post.ChannelId post) PermissionReadChannel).
        -- cbn [negb When ret]. rewrite IH. cbn [c Session auditRec trace log].
           destruct (flaggedPostScan app (Session (c s)) rest) as [evs [e|]];
             rewrite <- !app_assoc; cbn [List.app]; reflexivity.
        -- cbn. unfold log. cbn. rewrite <- ?app_assoc. reflexivity.
      * cbn. unfold log. cbn. rewrite <- ?app_assoc. reflexivity.
    + cbn [When ret]. rewrite IH. cbn [c Session auditRec trace].
      destruct (flaggedPostScan app (Session (c s)) rest) as [evs [e|]];
        rewrite <- ?app_assoc; reflexivity.
Qed.

(** Brings in what is known about the events of the loop. *)
Ltac loop_facts :=
  repeat match goal with
         | H : flaggedPostScan ?a ?s ?p = (?evs, ?stop) |- _ =>
             let O := fresh "O" in
             pose proof (flaggedPostScan_outcome a s p _ _ H) as O;
             clear H; inversion O; subst; clear O
         end;
  repeat match goal with
         | H : forallb (loop_event ?a) ?pre = true |- _ =>
             let Q := fresh "Q" in
             pose proof (loop_events_quiet a pre H) as Q;
             pose proof (loop_events_loads a pre H);
             destruct Q as (? & ? & ? & ? & ? & ?); clear H
         end.

(** Runs a handler through all its branches, the loop of
    updatePreferences included. *)
Ltac run_loop :=
  crunch; repeat (rewrite sanitizePreferences_scan || branch); loop_facts.

(** Reads the observations off a trace that may have a loop segment in
    it; [extra] is tried first at every step. *)
Ltac observe_with extra :=
  repeat first
    [ extra
    | rewrite <- app_assoc
    | rewrite facade_calls_app | rewrite err_writes_app | rewrite emitted_app
    | rewrite writes_app | rewrite forallb_app
    | progress cbn [facade_calls err_writes emitted writes flat_map filter
                    List.app forallb is_load andb orb map] ];
  repeat match goal with
         | H : _ = [] |- _ => rewrite H
         | H : _ = true |- _ => rewrite H
         | H : _ = false |- _ => rewrite H
         end;
  cbn [List.app orb andb map].

Ltac observe := observe_with fail.

(** *** Authorization failures *)

(** C2 (amended). When a permission check of a request fails, the
    request ends with the permission error, status 403; the failed
    check is followed by the setting of that error and, in the handlers
    that audit, the emission of the one audit record, which has status
    Fail, and by nothing else, so no facade call comes after it and
    nothing is written; before it the request has made no facade call
    except the loads patchScheme (GetScheme) and updatePreferences
    (GetSinglePost) do ahead of their check. *)
Theorem denied_request_audited_and_stopped :
  forall (app : App) (model : Decoders) (op : Op) (r : Request)
         (params : Params.t) (session : Session.t),
    let st := serve app model op r params session in
    let tr := trace st in
    denied tr = true ->
    (exists e,
        Err (c st) = Some e
        /\ AppError.StatusCode e = StatusForbidden
        /\ after_denial tr = ErrSet e :: map AuditEmit (emitted tr))
    /\ (if audits op
        then exists rec,
               emitted tr = [rec]
               /\ Record_.Status rec = Fail
               /\ Record_.Event rec = op_name op
        else emitted tr = [])
    /\ facade_calls (after_denial tr) = []
    /\ writes tr = []
    /\ forallb is_load (facade_calls (before_denial tr)) = true
    /\ (facade_calls tr = [] \/ op = OpPatchScheme \/ op = OpUpdatePreferences).
Proof.
  intros app model op r params session st tr. subst tr st.
  destruct op; cbn [audits op_name].
  all: run_loop.
  all: observe_with
         ltac:(first [ rewrite denied_app
                     | rewrite before_denial_app by assumption
                     | rewrite after_denial_app by assumption
                     | progress cbn [denied existsb is_denial
                                     before_denial after_denial] ]).
  all: try discriminate.
  all: repeat split; try (eexists; repeat split); auto.
Qed.

(** C2 as stated fails: updatePreferences has to look the flagged post
    up (GetSinglePost) to know the channel it asks the permission for,
    so the request denied at that check has made a facade call before
    it.  (patchScheme likewise calls GetScheme ahead of its check.) *)
Lemma flagged_post_is_loaded_before_channel_check :
  ~ (forall (app : App) (model : Decoders) (op : Op) (r : Request)
            (params : Params.t) (session : Session.t),
        let tr := trace (serve app model op r params session) in
        denied tr = true ->
        (audits op = true ->
         exists rec, emitted tr = [rec] /\ Record_.Status rec = Fail)
        /\ facade_calls tr = []).
Proof.
  intros claim.
  destruct (claim (demoApp licensed false) demoModel OpUpdatePreferences
                  {| Body := "theme,flag:post2" |} (forUser "user1") user1 eq_refl)
    as [_ H].
  cbv in H. discriminate H.
Qed.

(** C2 at the denied patch: nothing from the facade after the check,
    the load before it. *)
Lemma denied_request_audited_and_stopped_witness :
  denied (trace (serve (demoApp licensed false) demoModel OpPatchScheme
                       {| Body := "renamed" |} (forScheme "scheme1") user1)) = true
  /\ facade_calls
       (after_denial (trace (serve (demoApp licensed false) demoModel OpPatchScheme
                                   {| Body := "renamed" |} (forScheme "scheme1")
                                   user1))) = []
  /\ facade_calls
       (before_denial (trace (serve (demoApp licensed false) demoModel OpPatchScheme
                                    {| Body := "renamed" |} (forScheme "scheme1")
                                    user1))) = [CallGetScheme "scheme1"].
Proof.
  split; [reflexivity|]. split; [|reflexivity].
  exact (proj1 (proj2 (proj2 (denied_request_audited_and_stopped
                                (demoApp licensed false) demoModel OpPatchScheme
                                {| Body := "renamed" |} (forScheme "scheme1") user1
                                eq_refl)))).
Defined.

(** *** The license gate *)

(** C3 (amended). For createScheme, patchScheme and deleteScheme, a
    request that gets past the checks before the license gate (the
    body parses, the scheme id is present) on a deployment without
    license or with the CustomPermissionsSchemes flag off ends with
    the handler's license error, status 501, without any permission
    check or facade call, whatever the permission oracle would answer;
    and in every run of these handlers each permission check comes
    after a license check that passed. *)
Theorem license_gate_precedes_permission :
  forall (app : App) (model : Decoders) (op : Op) (r : Request)
         (params : Params.t) (session : Session.t),
    gated op = true ->
    let st := serve app model op r params session in
    license_first false (trace st) = true
    /\ (license_lacking app = true ->
        reaches_audit model op r params = true ->
        exists e,
          Err (c st) = Some e
          /\ AppError.StatusCode e = StatusNotImplemented
          /\ err_writes (trace st) = [e]
          /\ permission_checks (trace st) = []
          /\ facade_calls (trace st) = []).
Proof.
  intros app model op r params session Hg st. subst st.
  destruct op; try discriminate Hg; clear Hg.
  all: split;
    [ run_all; reflexivity
    | unfold license_lacking, reaches_audit; intros Hl Hr; run_all;
      eexists; repeat split ].
Qed.

(** C3 as stated fails: createScheme with a body that does not parse,
    on a deployment without license, ends with the invalid-parameter
    error (400) and never looks at the license. *)
Lemma unlicensed_createScheme_bad_body_is_400 :
  ~ (forall (app : App) (model : Decoders) (op : Op) (r : Request)
            (params : Params.t) (session : Session.t),
        gated op = true ->
        license_lacking app = true ->
        exists e,
          Err (c (serve app model op r params session)) = Some e
          /\ AppError.StatusCode e = StatusNotImplemented).
Proof.
  intros claim.
  destruct (claim (demoApp None false) demoModel OpCreateScheme {| Body := "" |}
                  params0 admin eq_refl eq_refl) as [e [He Hs]].
  cbv in He. inversion He. subst e. discriminate Hs.
Qed.

(** C3 at createScheme with a body that parses, no license, and the
    session that holds every permission. *)
Lemma license_gate_precedes_permission_witness :
  exists e,
    Err (c (serve (demoApp None false) demoModel OpCreateScheme
                  {| Body := "custom" |} params0 admin)) = Some e
    /\ AppError.StatusCode e = StatusNotImplemented
    /\ err_writes (trace (serve (demoApp None false) demoModel OpCreateScheme
                                {| Body := "custom" |} params0 admin)) = [e]
    /\ permission_checks (trace (serve (demoApp None false) demoModel OpCreateScheme
                                       {| Body := "custom" |} params0 admin)) = []
    /\ facade_calls (trace (serve (demoApp None false) demoModel OpCreateScheme
                                  {| Body := "custom" |} params0 admin)) = [].
Proof.
  exact (proj2 (license_gate_precedes_permission (demoApp None false) demoModel
                  OpCreateScheme {| Body := "custom" |} params0 admin eq_refl)
               eq_refl eq_refl).
Defined.

(** *** Errors of the facade *)

Ltac settle_call Hin Hfe :=
  cbn [In] in Hin; rewrite ?in_app_iff in Hin; cbn [In] in Hin;
  repeat match goal with
         | H : _ \/ _ |- _ => destruct H
         | H : False |- _ => destruct H
         end;
  first
    [ match goal with
      | HF : Forall _ (facade_calls ?pre), HI : In _ (facade_calls ?pre) |- _ =>
          let Q := fresh "Q" in
          pose proof (proj1 (Forall_forall _ _) HF _ HI) as Q;
          destruct Q as [[? ?] ?]; congruence
      end
    | subst; cbn [facade_error err_of] in Hfe;
      repeat match goal with
             | H : ?x = inl _ |- _ =>
                 match type of Hfe with context [x] => rewrite H in Hfe end
             | H : ?x = inr _ |- _ =>
                 match type of Hfe with context [x] => rewrite H in Hfe end
             end;
      cbn [err_of] in Hfe; try discriminate Hfe; try congruence;
      try (injection Hfe as Hfe; subst) ].

(** C4 (amended). An error a facade call returns becomes the request's
    error as it is, and is the only error the request sets, in every
    handler and for every facade call but one: in updatePreferences the
    error of GetSinglePost is replaced by the invalid-parameter error
    for "preference.name" (400). *)
Theorem facade_error_passed_through :
  forall (app : App) (model : Decoders) (op : Op) (r : Request)
         (params : Params.t) (session : Session.t)
         (call : Call) (err : AppError.t),
    let st := serve app model op r params session in
    In call (facade_calls (trace st)) ->
    facade_error app call = Some err ->
    match call with
    | CallGetSinglePost _ =>
        op = OpUpdatePreferences
        /\ Err (c st) = Some invalidPreferenceName
        /\ err_writes (trace st) = [invalidPreferenceName]
    | _ => Err (c st) = Some err /\ err_writes (trace st) = [err]
    end.
Proof.
  intros app model op r params session.
  destruct op.
  all: run_loop; intros theCall theErr; observe; intros Hin Hfe; settle_call Hin Hfe.
  all: cbv iota beta; repeat split; congruence.
Qed.

(** C4 as stated fails: updatePreferences with a flagged entry whose
    post lookup fails with the facade's 404 error ends with the
    invalid-parameter error for "preference.name". *)
Lemma updatePreferences_replaces_post_error :
  ~ (forall (app : App) (model : Decoders) (op : Op) (r : Request)
            (params : Params.t) (session : Session.t)
            (call : Call) (err : AppError.t),
        In call (facade_calls (trace (serve app model op r params session))) ->
        facade_error app call = Some err ->
        Err (c (serve app model op r params session)) = Some err).
Proof.
  intros claim.
  assert (H := claim (demoApp licensed false) demoModel OpUpdatePreferences
                     {| Body := "flag:post9,flag:post2" |} (forUser "user1") user1
                     (CallGetSinglePost "post9") (notFound "app.post.get.app_error")
                     (or_introl eq_refl) eq_refl).
  cbv in H. discriminate H.
Qed.

(** C4 at getScheme for a scheme the facade does not find. *)
Lemma facade_error_passed_through_witness :
  Err (c (serve (demoApp licensed false) demoModel OpGetScheme {| Body := "" |}
                (forScheme "scheme9") admin))
  = Some (notFound "app.scheme.get.app_error")
  /\ err_writes (trace (serve (demoApp licensed false) demoModel OpGetScheme
                              {| Body := "" |} (forScheme "scheme9") admin))
     = [notFound "app.scheme.get.app_error"].
Proof.
  exact (facade_error_passed_through (demoApp licensed false) demoModel OpGetScheme
           {| Body := "" |} (forScheme "scheme9") admin
           (CallGetScheme "scheme9") (notFound "app.scheme.get.app_error")
           (or_introl eq_refl) eq_refl).
Defined.

(** *** The audit record *)

Lemma ends_single {A : Type} (x : A) : exists pre, [x] = pre ++ [x].
Proof. now exists []. Qed.

Lemma ends_cons {A : Type} (a x : A) (l : list A) :
  (exists pre, l = pre ++ [x]) -> exists pre, a :: l = pre ++ [x].
Proof. intros [pre ->]. now exists (a :: pre). Qed.

Lemma ends_app {A : Type} (x : A) (l1 l2 : list A) :
  (exists pre, l2 = pre ++ [x]) -> exists pre, l1 ++ l2 = pre ++ [x].
Proof. intros [pre ->]. exists (l1 ++ pre). now rewrite app_assoc. Qed.

(** C5 (amended). A handler that audits creates its record, with
    status Fail, once the checks that precede the creation have passed
    (the required id is present, the body of createScheme or
    patchScheme parses); from there on every way out (license failure,
    permission failure, a later validation failure, an error of the
    facade, success) emits that one record, as the last event of the
    request and in its final state, with status Success exactly when
    the request ends without error.  A request turned away before the
    creation has no record and emits none.  A successful createScheme
    emits one Success record with two "scheme" entries, the payload
    attached before the CreateScheme call and the created scheme
    attached after it, in that order. *)
Theorem audit_record_finalized_once :
  forall (app : App) (model : Decoders) (op : Op) (r : Request)
         (params : Params.t) (session : Session.t),
    let st := serve app model op r params session in
    let tr := trace st in
    (if audits op && reaches_audit model op r params
     then exists rec,
            begun tr = [(op_name op, Fail)]
            /\ emitted tr = [rec]
            /\ (exists pre, tr = pre ++ [AuditEmit rec])
            /\ auditRec st = Some rec
            /\ Record_.Event rec = op_name op
            /\ (Record_.Status rec = Success <-> Err (c st) = None)
     else begun tr = [] /\ emitted tr = [])
    /\ (forall scheme created : Scheme.t,
           op = OpCreateScheme ->
           SchemeFromJson model (Body r) = Some scheme ->
           license_lacking app = false ->
           AppSessionHasPermissionTo
             app session PermissionSysconsoleWriteUserManagementPermissions = true ->
           AppCreateScheme app scheme = inl created ->
           tr = [AuditBegin "createScheme" Fail;
                 AuditMeta "scheme" (MetaScheme scheme);
                 LicenseCheck true;
                 PermissionCheck
                   (ToPermission PermissionSysconsoleWriteUserManagementPermissions)
                   true;
                 Facade (CallCreateScheme scheme);
                 AuditSuccess;
                 AuditMeta "scheme" (MetaScheme created);
                 WriteHeader StatusCreated;
                 Write (JsonScheme created);
                 AuditEmit (Record_.mk "createScheme" Success
                              [("scheme"%string, MetaScheme scheme);
                               ("scheme"%string, MetaScheme created)])]).
Proof.
  intros app model op r params session st tr. subst tr st.
  split.
  - destruct op; cbn [audits reaches_audit op_name andb].
    all: run_loop.
    all: observe_with ltac:(first [ rewrite begun_app
                                  | progress cbn [begun flat_map List.app] ]).
    all: try (split; reflexivity).
    all: eexists; repeat split; try reflexivity; try discriminate.
    all: repeat first [apply ends_single | apply ends_cons | apply ends_app].
  - intros scheme created -> Hparse Hlic Hperm Hcreate.
    unfold license_lacking in Hlic.
    crunch. rewrite Hparse. crunch.
    destruct (SrvLicense app) as [l|]; [|discriminate Hlic].
    crunch. destruct (CustomPermissionsSchemes l); [|discriminate Hlic].
    crunch. rewrite Hperm. crunch. rewrite Hcreate. reflexivity.
Qed.

(** C5 as stated fails: createScheme with a body that does not parse
    returns before the record is created, and emits none. *)
Lemma createScheme_bad_body_emits_no_record :
  ~ (forall (app : App) (model : Decoders) (op : Op) (r : Request)
            (params : Params.t) (session : Session.t),
        audits op = true ->
        exists rec, emitted (trace (serve app model op r params session)) = [rec]).
Proof.
  intros claim.
  destruct (claim (demoApp licensed false) demoModel OpCreateScheme
                  {| Body := "" |} params0 admin eq_refl) as [rec H].
  cbv in H. discriminate H.
Qed.

(** C5 at a createScheme that succeeds. *)
Lemma audit_record_finalized_once_witness :
  emitted (trace (serve (demoApp licensed false) demoModel OpCreateScheme
                        {| Body := "custom" |} params0 admin))
  = [Record_.mk "createScheme" Success
       [("scheme"%string, MetaScheme (Scheme.mk "" "custom" "team"));
        ("scheme"%string, MetaScheme (Scheme.mk "scheme3" "custom" "team"))]].
Proof.
  rewrite (proj2 (audit_record_finalized_once (demoApp licensed false) demoModel
                    OpCreateScheme {| Body := "custom" |} params0 admin)
                 (Scheme.mk "" "custom" "team") (Scheme.mk "scheme3" "custom" "team")
                 eq_refl eq_refl eq_refl eq_refl eq_refl).
  reflexivity.
Defined.

(** *** Flagged posts in updatePreferences *)

Lemma flaggedPostScan_stops (app : App) (session : Session.t)
      (before after : Preferences) (pref : Preference.t) (post : Post.t) :
  is_flagged pref = true ->
  AppGetSinglePost app (Preference.Name pref) = inl post ->
  AppSessionHasPermissionToChannel app session (Post.ChannelId post)
                                   PermissionReadChannel = false ->
  exists evs e,
    flaggedPostScan app session (before ++ pref :: after) = (evs, Some e)
    /\ (forallb (fun p => negb (is_flagged p) || resolves app p) before = true ->
        e = readChannelDenied).
Proof.
  intros Hflag Hpost Hperm.
  induction before as [|p before IH]; cbn [List.app flaggedPostScan forallb].
  - rewrite Hflag, Hpost, Hperm. do 2 eexists. split; [reflexivity|]. reflexivity.
  - destruct IH as (evs & e & Hscan & He). rewrite Hscan.
    unfold resolves.
    destruct (is_flagged p); cbn [negb orb].
    + destruct (AppGetSinglePost app (Preference.Name p)) as [post'|err].
      * destruct (AppSessionHasPermissionToChannel app session (Post.ChannelId post')
                                                    PermissionReadChannel).
        -- do 2 eexists. split; [reflexivity|]. exact He.
        -- do 2 eexists. split; [reflexivity|]. reflexivity.
      * do 2 eexists. split; [reflexivity|]. cbn. discriminate.
    + do 2 eexists. split; [reflexivity|]. exact He.
Qed.

Lemma loads_exclude_update (calls : list Call) (uid : string) (ps : Preferences) :
  forallb is_load calls = true -> ~ In (CallUpdatePreferences uid ps) calls.
Proof.
  intros H Hin. rewrite forallb_forall in H. specialize (H _ Hin). discriminate H.
Qed.

(** C6 (amended). When the preference list of an updatePreferences
    request has a flagged_post entry whose post lies in a channel the
    session cannot read, the request ends with an error, 403 or 400,
    UpdatePreferences is never called (the only facade calls are post
    lookups) and nothing is written; the error is the 403 when the
    UserId is present and every flagged_post entry before that one
    names a post that exists. *)
Theorem unreadable_flagged_post_blocks_update :
  forall (app : App) (model : Decoders) (r : Request) (params : Params.t)
         (session : Session.t) (before after : Preferences)
         (pref : Preference.t) (post : Post.t),
    PreferencesFromJson model (Body r) = inl (before ++ pref :: after) ->
    is_flagged pref = true ->
    AppGetSinglePost app (Preference.Name pref) = inl post ->
    AppSessionHasPermissionToChannel app session (Post.ChannelId post)
                                     PermissionReadChannel = false ->
    let st := serve app model OpUpdatePreferences r params session in
    (exists e,
        Err (c st) = Some e
        /\ (AppError.StatusCode e = StatusForbidden
            \/ AppError.StatusCode e = StatusBadRequest)
        /\ (Params.UserId params <> ""%string ->
            forallb (fun p => negb (is_flagged p) || resolves app p) before = true ->
            AppError.StatusCode e = StatusForbidden))
    /\ forallb is_load (facade_calls (trace st)) = true
    /\ (forall uid ps, ~ In (CallUpdatePreferences uid ps) (facade_calls (trace st)))
    /\ writes (trace st) = [].
Proof.
  intros app model r params session before after pref post Hparse Hflag Hpost Hperm st.
  assert (Hmain :
    (exists e,
        Err (c st) = Some e
        /\ (AppError.StatusCode e = StatusForbidden
            \/ AppError.StatusCode e = StatusBadRequest)
        /\ (Params.UserId params <> ""%string ->
            forallb (fun p => negb (is_flagged p) || resolves app p) before = true ->
            AppError.StatusCode e = StatusForbidden))
    /\ forallb is_load (facade_calls (trace st)) = true
    /\ writes (trace st) = []).
  { subst st.
    destruct (flaggedPostScan_stops app session before after pref post
                                    Hflag Hpost Hperm) as (evs & e & Hscan & He).
    destruct (String.eqb (Params.UserId params) "") eqn:Huser.
    - crunch. rewrite Huser. crunch. strings.
      split; [eexists; split; [reflexivity|]; split; [now right | congruence]|].
      split; reflexivity.
    - crunch. rewrite Huser. crunch.
      destruct (AppSessionHasPermissionToUser app session (Params.UserId params)).
      + crunch. rewrite Hparse. crunch. rewrite sanitizePreferences_scan.
        crunch. rewrite Hscan.
        pose proof (flaggedPostScan_outcome _ _ _ _ _ Hscan) as O.
        inversion O as [| pre n err Hq Hn | pre n post' Hq Hn]; subst;
          pose proof (loop_events_loads _ _ Hq);
          destruct (loop_events_quiet _ _ Hq) as (? & ? & ? & ? & ? & ?);
          crunch; observe.
        * split; [eexists; split; [reflexivity|]; split; [now right|]|].
          -- intros _ Hall. specialize (He Hall). discriminate He.
          -- split; reflexivity.
        * split; [eexists; split; [reflexivity|]; split; [now left|]|].
          -- intros _ _. reflexivity.
          -- split; reflexivity.
      + crunch.
        split; [eexists; split; [reflexivity|]; split; [now left | reflexivity]|].
        split; reflexivity. }
  destruct Hmain as (H1 & H2 & H3).
  repeat split; try assumption.
  intros uid ps. now apply loads_exclude_update.
Qed.

(** C6 as stated fails: when an earlier flagged entry names a post
    that does not exist, the request ends with the 400 for
    "preference.name", not with 403. *)
Lemma missing_post_before_unreadable_one_is_400 :
  ~ (forall (app : App) (model : Decoders) (r : Request) (params : Params.t)
            (session : Session.t) (prefs : Preferences)
            (pref : Preference.t) (post : Post.t),
        PreferencesFromJson model (Body r) = inl prefs ->
        In pref prefs ->
        is_flagged pref = true ->
        AppGetSinglePost app (Preference.Name pref) = inl post ->
        AppSessionHasPermissionToChannel app session (Post.ChannelId post)
                                         PermissionReadChannel = false ->
        exists e,
          Err (c (serve app model OpUpdatePreferences r params session)) = Some e
          /\ AppError.StatusCode e = StatusForbidden).
Proof.
  intros claim.
  destruct (claim (demoApp licensed false) demoModel
                  {| Body := "flag:post9,flag:post2" |} (forUser "user1") user1
                  [flagGone; flagPost2] flagPost2 (Post.mk "post2" "private")
                  eq_refl (or_intror (or_introl eq_refl)) eq_refl eq_refl eq_refl)
    as [e [He Hs]].
  cbv in He. inversion He. subst e. discriminate Hs.
Qed.

(** C6 at a batch with a valid theme entry and a flagged post in the
    channel "private": the only facade call is the post lookup, and
    nothing is written. *)
Lemma unreadable_flagged_post_blocks_update_witness :
  forallb is_load
          (facade_calls (trace (serve (demoApp licensed false) demoModel
                                      OpUpdatePreferences
                                      {| Body := "theme,flag:post2" |}
                                      (forUser "user1") user1))) = true
  /\ writes (trace (serve (demoApp licensed false) demoModel OpUpdatePreferences
                          {| Body := "theme,flag:post2" |}
                          (forUser "user1") user1)) = [].
Proof.
  pose proof (unreadable_flagged_post_blocks_update
                (demoApp licensed false) demoModel
                {| Body := "theme,flag:post2" |} (forUser "user1") user1
                [themePref] [] flagPost2 (Post.mk "post2" "private")
                eq_refl eq_refl eq_refl eq_refl) as H.
  exact (conj (proj1 (proj2 H)) (proj2 (proj2 (proj2 H)))).
Defined.

(** *** Scheme scope *)

(** C7 (amended). Once getTeamsForScheme has loaded the scheme (the id
    is present, the permission granted, GetScheme answers with the
    scheme), a scope other than "team" ends the request with the scope
    error, status 400, GetScheme being the only facade call; with
    scope "team" GetTeamsForSchemePage is called next, and the request
    succeeds and writes the teams unless that call returns an error,
    which then is the request's error.  The same holds for
    getChannelsForScheme with scope "channel" and
    GetChannelsForSchemePage. *)
Theorem scheme_scope_checked_after_load :
  forall (app : App) (model : Decoders) (r : Request) (params : Params.t)
         (session : Session.t) (scheme : Scheme.t),
    Params.SchemeId params <> ""%string ->
    AppGetScheme app (Params.SchemeId params) = inl scheme ->
    (AppSessionHasPermissionTo app session
                               PermissionSysconsoleReadUserManagementTeams = true ->
     let st := serve app model OpGetTeamsForScheme r params session in
     if String.eqb (Scheme.Scope scheme) SchemeScopeTeam
     then facade_calls (trace st)
          = [CallGetScheme (Params.SchemeId params);
             CallGetTeamsForSchemePage scheme (Params.Page params)
                                       (Params.PerPage params)]
          /\ match AppGetTeamsForSchemePage app scheme (Params.Page params)
                                            (Params.PerPage params) with
             | inl teams =>
                 Err (c st) = None /\ writes (trace st) = [Write (JsonTeams teams)]
             | inr err => Err (c st) = Some err /\ writes (trace st) = []
             end
     else facade_calls (trace st) = [CallGetScheme (Params.SchemeId params)]
          /\ Err (c st)
             = Some (NewAppError "Api4.GetTeamsForScheme"
                                 "api.scheme.get_teams_for_scheme.scope.error"
                                 [] "" StatusBadRequest)
          /\ writes (trace st) = [])
    /\ (AppSessionHasPermissionTo app session
                                  PermissionSysconsoleReadUserManagementChannels = true ->
        let st := serve app model OpGetChannelsForScheme r params session in
        if String.eqb (Scheme.Scope scheme) SchemeScopeChannel
        then facade_calls (trace st)
             = [CallGetScheme (Params.SchemeId params);
                CallGetChannelsForSchemePage scheme (Params.Page params)
                                             (Params.PerPage params)]
             /\ match AppGetChannelsForSchemePage app scheme (Params.Page params)
                                                  (Params.PerPage params) with
                | inl channels =>
                    Err (c st) = None
                    /\ writes (trace st) = [Write (JsonChannels channels)]
                | inr err => Err (c st) = Some err /\ writes (trace st) = []
                end
        else facade_calls (trace st) = [CallGetScheme (Params.SchemeId params)]
             /\ Err (c st)
                = Some (NewAppError "Api4.GetChannelsForScheme"
                                    "api.scheme.get_channels_for_scheme.scope.error"
                                    [] "" StatusBadRequest)
             /\ writes (trace st) = []).
Proof.
  intros app model r params session scheme Hid Hload.
  apply String.eqb_neq in Hid.
  split; intros Hperm st; subst st.
  all: crunch; rewrite Hid; crunch; rewrite Hperm; crunch; rewrite Hload; crunch.
  all: repeat branch; repeat split; reflexivity.
Qed.

(** C7 as stated fails in the matching-scope case: the team list of a
    team scheme is not served when GetTeamsForSchemePage returns an
    error. *)
Lemma matching_scope_request_can_fail :
  ~ (forall (app : App) (model : Decoders) (r : Request) (params : Params.t)
            (session : Session.t) (scheme : Scheme.t),
        Params.SchemeId params <> ""%string ->
        AppSessionHasPermissionTo app session
                                  PermissionSysconsoleReadUserManagementTeams = true ->
        AppGetScheme app (Params.SchemeId params) = inl scheme ->
        Scheme.Scope scheme = SchemeScopeTeam ->
        In (CallGetTeamsForSchemePage scheme (Params.Page params)
                                      (Params.PerPage params))
           (facade_calls (trace (serve app model OpGetTeamsForScheme r params session)))
        /\ Err (c (serve app model OpGetTeamsForScheme r params session)) = None).
Proof.
  intros claim.
  assert (Hid : Params.SchemeId (forScheme "scheme1") <> ""%string) by discriminate.
  destruct (claim (demoApp licensed true) demoModel {| Body := "" |}
                  (forScheme "scheme1") admin teamScheme Hid eq_refl eq_refl eq_refl)
    as [_ H].
  cbv in H. discriminate H.
Qed.

(** C7 at the team list of the channel scheme "scheme2". *)
Lemma scheme_scope_checked_after_load_witness :
  Err (c (serve (demoApp licensed false) demoModel OpGetTeamsForScheme
                {| Body := "" |} (forScheme "scheme2") admin))
  = Some (NewAppError "Api4.GetTeamsForScheme"
                      "api.scheme.get_teams_for_scheme.scope.error"
                      [] "" StatusBadRequest).
Proof.
  exact (proj1 (proj2 (proj1 (scheme_scope_checked_after_load
                                (demoApp licensed false) demoModel {| Body := "" |}
                                (forScheme "scheme2") admin channelScheme
                                ltac:(discriminate) eq_refl)
                             eq_refl))).
Defined.

(** *** The validation chain *)

(** C8. The error slot latches: a chain check (and the handler's test
    of the slot after the chain) on a context whose slot is set changes
    nothing; in a run the slot is written at most once and keeps what
    was written; when the chain fails, the first empty field's error is
    the only event of the request; so getPreferencesByCategory without
    UserId and without Category reports the UserId violation only. *)
Theorem error_slot_latches :
  forall (app : App) (model : Decoders) (op : Op) (r : Request)
         (params : Params.t) (session : Session.t),
    let st := serve app model op r params session in
    (forall (s : State) (e : AppError.t),
        Err (c s) = Some e ->
        RequireUserId s = (Some tt, s) /\ RequireSchemeId s = (Some tt, s)
        /\ RequireCategory s = (Some tt, s)
        /\ RequirePreferenceName s = (Some tt, s)
        /\ ReturnIfErr s = (None, s))
    /\ ((err_writes (trace st) = [] /\ Err (c st) = None)
        \/ (exists e, err_writes (trace st) = [e] /\ Err (c st) = Some e))
    /\ (forall first,
           first_missing (required op) params = Some first ->
           st = {| c := {| Params := params; Session := session;
                           Err := Some (NewAppError "Context" first [] ""
                                                    StatusBadRequest) |};
                   auditRec := None;
                   trace := [ErrSet (NewAppError "Context" first [] ""
                                                 StatusBadRequest)] |})
    /\ (op = OpGetPreferencesByCategory ->
        Params.UserId params = ""%string ->
        Params.Category params = ""%string ->
        Err (c st) = Some (NewAppError "Context" "user_id" [] "" StatusBadRequest)
        /\ err_writes (trace st)
           = [NewAppError "Context" "user_id" [] "" StatusBadRequest]).
Proof.
  intros app model op r params session st. subst st.
  split; [|split; [|split]].
  - intros s e He.
    unfold RequireUserId, RequireSchemeId, RequireCategory, RequirePreferenceName,
      Require, ReturnIfErr.
    rewrite He. repeat split.
  - destruct op.
    all: run_loop; observe;
      try (left; split; reflexivity); try (right; eexists; split; reflexivity).
  - intros first Hfirst.
    destruct op; cbn [required first_missing] in Hfirst;
      crunch; repeat branch; strings; try congruence.
  - intros Hop Huser Hcat. subst op.
    crunch. rewrite Huser. cbn. split; reflexivity.
Qed.

(** C8 at the request without UserId and without Category. *)
Lemma error_slot_latches_witness :
  Err (c (serve (demoApp licensed false) demoModel OpGetPreferencesByCategory
                {| Body := "" |} params0 admin))
  = Some (NewAppError "Context" "user_id" [] "" StatusBadRequest)
  /\ err_writes (trace (serve (demoApp licensed false) demoModel
                              OpGetPreferencesByCategory {| Body := "" |}
                              params0 admin))
     = [NewAppError "Context" "user_id" [] "" StatusBadRequest].
Proof.
  exact (proj2 (proj2 (proj2 (error_slot_latches
                                (demoApp licensed false) demoModel
                                OpGetPreferencesByCategory {| Body := "" |}
                                params0 admin)))
               eq_refl eq_refl eq_refl).
Defined.

(** C9 (amended). When a required parameter of a handler is empty, the
    handler ends with the invalid-parameter error, status 400, for the
    first empty field of its chain, and the setting of the error is the
    only thing the request does (no facade call); the error names
    exactly that parameter when the fields checked before it are
    present. *)
Theorem missing_required_field_rejected :
  forall (app : App) (model : Decoders) (op : Op) (r : Request)
         (params : Params.t) (session : Session.t)
         (before after : list ((Params.t -> string) * string))
         (field : Params.t -> string) (identifier : string),
    required op = before ++ (field, identifier) :: after ->
    field params = ""%string ->
    let st := serve app model op r params session in
    (exists first,
        first_missing (required op) params = Some first
        /\ Err (c st) = Some (NewAppError "Context" first [] "" StatusBadRequest)
        /\ trace st = [ErrSet (NewAppError "Context" first [] "" StatusBadRequest)])
    /\ facade_calls (trace st) = []
    /\ (first_missing before params = None ->
        Err (c st) = Some (NewAppError "Context" identifier [] "" StatusBadRequest)).
Proof.
  intros app model op r params session before after field identifier Hreq Hempty st.
  subst st.
  destruct op; cbn [required] in Hreq |- *.
  all: destruct before as [|[? ?] before];
    [| destruct before as [|[? ?] before];
       [| destruct before as [|[? ?] before]; [| destruct before]]];
    cbn in Hreq; inversion Hreq; subst; clear Hreq.
  all: cbn [first_missing]; crunch; repeat branch; strings; try congruence.
  all: repeat split; try (eexists; repeat split); try discriminate;
    intros; congruence.
Qed.

(** C9 as stated fails: on getPreferencesByCategory a request without
    Category and without UserId is rejected for UserId, not for
    Category. *)
Lemma missing_category_reported_as_user_id :
  ~ (forall (app : App) (model : Decoders) (op : Op) (r : Request)
            (params : Params.t) (session : Session.t)
            (field : Params.t -> string) (identifier : string),
        In (field, identifier) (required op) ->
        field params = ""%string ->
        Err (c (serve app model op r params session))
        = Some (NewAppError "Context" identifier [] "" StatusBadRequest)).
Proof.
  intros claim.
  assert (H := claim (demoApp licensed false) demoModel OpGetPreferencesByCategory
                     {| Body := "" |} params0 admin Params.Category "category"
                     (or_intror (or_introl eq_refl)) eq_refl).
  cbv in H. discriminate H.
Qed.

(** C9 at getPreferencesByCategory with a UserId and no Category. *)
Lemma missing_required_field_rejected_witness :
  Err (c (serve (demoApp licensed false) demoModel OpGetPreferencesByCategory
                {| Body := "" |} (forUser "user1") user1))
  = Some (NewAppError "Context" "category" [] "" StatusBadRequest).
Proof.
  exact (proj2 (proj2 (missing_required_field_rejected
                         (demoApp licensed false) demoModel OpGetPreferencesByCategory
                         {| Body := "" |} (forUser "user1") user1
                         [(Params.UserId, "user_id"%string)] []
                         Params.Category "category" eq_refl eq_refl))
               eq_refl).
Defined.

(* ===================================================================== *)
(** * Further properties: package users *)
(* ===================================================================== *)

Lemma list_ascii_of_string_app (a b : string) :
  list_ascii_of_string (a ++ b)%string
  = list_ascii_of_string a ++ list_ascii_of_string b.
Proof. induction a as [|ch a IH]; cbn; [reflexivity | now rewrite IH]. Qed.

Lemma ContainsAny_app (a b chars : string) :
  Users.ContainsAny (a ++ b)%string chars
  = Users.ContainsAny a chars || Users.ContainsAny b chars.
Proof.
  unfold Users.ContainsAny. rewrite list_ascii_of_string_app. apply existsb_app.
Qed.

Lemma len_app (a b : string) : Users.len (a ++ b)%string = Users.len a + Users.len b.
Proof.
  unfold Users.len. rewrite <- Nat2Z.inj_add. f_equal.
  induction a as [|ch a IH]; cbn; [reflexivity | now rewrite IH].
Qed.

Lemma len_nonneg (a : string) : 0 <= Users.len a.
Proof. unfold Users.len. lia. Qed.

Lemma valid_iff_conforms (maxLen : Z) (lc uc nums syms password : string)
      (settings : Users.PasswordSettings) :
  Users.IsPasswordValidWithSettings maxLen lc uc nums syms password settings = None
  <-> Users.conforms maxLen lc uc nums syms password settings = true.
Proof.
  rewrite IsPasswordValidWithSettings_conforms.
  destruct (Users.conforms maxLen lc uc nums syms password settings);
    split; congruence.
Qed.

(** What [conforms] asks for, piece by piece. *)
Lemma conforms_parts (maxLen : Z) (lc uc nums syms password : string)
      (settings : Users.PasswordSettings) :
  Users.conforms maxLen lc uc nums syms password settings = true
  <-> (Users.MinimumLength settings <= Users.len password <= maxLen)
      /\ (Users.Lowercase settings = true -> Users.ContainsAny password lc = true)
      /\ (Users.Uppercase settings = true -> Users.ContainsAny password uc = true)
      /\ (Users.Number settings = true -> Users.ContainsAny password nums = true)
      /\ (Users.Symbol settings = true -> Users.ContainsAny password syms = true).
Proof.
  unfold Users.conforms.
  rewrite !andb_true_iff, negb_true_iff, orb_false_iff, Z.ltb_ge, Z.gtb_ltb, Z.ltb_ge.
  rewrite !orb_true_iff, !negb_true_iff.
  split.
  - intros [[[[[H1 H2] H3] H4] H5] H6].
    repeat split; try assumption;
      intros E; match goal with H : _ \/ _ |- _ => destruct H; congruence end.
  - intros [[H1 H2] [H3 [H4 [H5 H6]]]].
    repeat split; try assumption.
    + destruct (Users.Lowercase settings); auto.
    + destruct (Users.Uppercase settings); auto.
    + destruct (Users.Number settings); auto.
    + destruct (Users.Symbol settings); auto.
Qed.

(** X1. A password the settings accept is accepted by every weaker
    setting: a minimum length that is not larger, and no character
    class required that was not required before. *)
Theorem weaker_settings_accept_more :
  forall (PasswordMaximumLength : Z)
         (LowercaseLetters UppercaseLetters NUMBERS SYMBOLS : string)
         (password : string) (strict weak : Users.PasswordSettings),
    Users.MinimumLength weak <= Users.MinimumLength strict ->
    (Users.Lowercase weak = true -> Users.Lowercase strict = true) ->
    (Users.Uppercase weak = true -> Users.Uppercase strict = true) ->
    (Users.Number weak = true -> Users.Number strict = true) ->
    (Users.Symbol weak = true -> Users.Symbol strict = true) ->
    Users.IsPasswordValidWithSettings PasswordMaximumLength LowercaseLetters
      UppercaseLetters NUMBERS SYMBOLS password strict = None ->
    Users.IsPasswordValidWithSettings PasswordMaximumLength LowercaseLetters
      UppercaseLetters NUMBERS SYMBOLS password weak = None.
Proof.
  intros maxLen lc uc nums syms password strict weak Hmin Hl Hu Hn Hs.
  rewrite !valid_iff_conforms, !conforms_parts.
  intros [[H1 H2] [H3 [H4 [H5 H6]]]].
  repeat split; auto; lia.
Qed.

Lemma weaker_settings_accept_more_witness :
  Users.IsPasswordValidWithSettings 72 "abcdefghijklmnopqrstuvwxyz"
    "ABCDEFGHIJKLMNOPQRSTUVWXYZ" "0123456789" "!#$%&*+-=?@^_~"
    "Passw0rd" Users.laxSettings = None.
Proof.
  apply (weaker_settings_accept_more 72 "abcdefghijklmnopqrstuvwxyz"
           "ABCDEFGHIJKLMNOPQRSTUVWXYZ" "0123456789" "!#$%&*+-=?@^_~"
           "Passw0rd" Users.strictSettings Users.laxSettings);
    cbn; try discriminate; try reflexivity; try lia.
Defined.

(** X2. Adding characters in front of or behind an accepted password
    keeps it accepted as long as the result is not longer than
    PasswordMaximumLength. *)
Theorem longer_password_stays_valid :
  forall (PasswordMaximumLength : Z)
         (LowercaseLetters UppercaseLetters NUMBERS SYMBOLS : string)
         (front password back : string) (settings : Users.PasswordSettings),
    Users.IsPasswordValidWithSettings PasswordMaximumLength LowercaseLetters
      UppercaseLetters NUMBERS SYMBOLS password settings = None ->
    Users.len (front ++ password ++ back)%string <= PasswordMaximumLength ->
    Users.IsPasswordValidWithSettings PasswordMaximumLength LowercaseLetters
      UppercaseLetters NUMBERS SYMBOLS (front ++ password ++ back)%string settings
    = None.
Proof.
  intros maxLen lc uc nums syms front password back settings.
  rewrite !valid_iff_conforms, !conforms_parts.
  intros [[H1 H2] [H3 [H4 [H5 H6]]]] Hlen.
  assert (Hkeep : forall cs, Users.ContainsAny password cs = true ->
                             Users.ContainsAny (front ++ password ++ back)%string cs
                             = true).
  { intros cs H. rewrite !ContainsAny_app, H. now rewrite orb_true_r. }
  rewrite !len_app in *.
  pose proof (len_nonneg front). pose proof (len_nonneg back).
  repeat split; auto; lia.
Qed.

Lemma longer_password_stays_valid_witness :
  Users.IsPasswordValidWithSettings 72 "abcdefghijklmnopqrstuvwxyz"
    "ABCDEFGHIJKLMNOPQRSTUVWXYZ" "0123456789" "!#$%&*+-=?@^_~"
    ("my " ++ "Passw0rd" ++ " 2024")%string Users.strictSettings = None.
Proof.
  apply (longer_password_stays_valid 72 "abcdefghijklmnopqrstuvwxyz"
           "ABCDEFGHIJKLMNOPQRSTUVWXYZ" "0123456789" "!#$%&*+-=?@^_~"
           "my " "Passw0rd" " 2024" Users.strictSettings);
    [reflexivity | cbn; lia].
Defined.

(** X3. The empty password is accepted exactly when no character class
    is required and the length bounds admit length 0; and when the
    minimum length exceeds PasswordMaximumLength no password at all is
    accepted. *)
Theorem empty_password_and_empty_range :
  forall (PasswordMaximumLength : Z)
         (LowercaseLetters UppercaseLetters NUMBERS SYMBOLS : string)
         (password : string) (settings : Users.PasswordSettings),
    (Users.IsPasswordValidWithSettings PasswordMaximumLength LowercaseLetters
       UppercaseLetters NUMBERS SYMBOLS "" settings = None
     <-> Users.MinimumLength settings <= 0 <= PasswordMaximumLength
         /\ Users.Lowercase settings = false /\ Users.Uppercase settings = false
         /\ Users.Number settings = false /\ Users.Symbol settings = false)
    /\ (PasswordMaximumLength < Users.MinimumLength settings ->
        Users.IsPasswordValidWithSettings PasswordMaximumLength LowercaseLetters
          UppercaseLetters NUMBERS SYMBOLS password settings
        = Some (Users.ErrInvalidPassword (Users.policy_id settings))).
Proof.
  intros maxLen lc uc nums syms password settings. split.
  - rewrite valid_iff_conforms, conforms_parts.
    change (Users.len "") with 0. change (Users.ContainsAny "" ?cs) with false.
    unfold Users.ContainsAny. cbn [list_ascii_of_string existsb].
    split.
    + intros [H1 [H2 [H3 [H4 H5]]]]. split; [assumption|].
      destruct (Users.Lowercase settings), (Users.Uppercase settings),
        (Users.Number settings), (Users.Symbol settings);
        repeat split; try reflexivity;
        try (now specialize (H2 eq_refl)); try (now specialize (H3 eq_refl));
        try (now specialize (H4 eq_refl)); try (now specialize (H5 eq_refl)).
    + intros [H1 [H2 [H3 [H4 H5]]]]. rewrite H2, H3, H4, H5.
      repeat split; try apply H1; discriminate.
  - intros Hrange. rewrite IsPasswordValidWithSettings_conforms.
    destruct (Users.conforms maxLen lc uc nums syms password settings) eqn:E;
      [|reflexivity].
    apply conforms_parts in E. lia.
Qed.

Lemma empty_password_and_empty_range_witness :
  Users.IsPasswordValidWithSettings 72 "abcdefghijklmnopqrstuvwxyz"
    "ABCDEFGHIJKLMNOPQRSTUVWXYZ" "0123456789" "!#$%&*+-=?@^_~" "Passw0rd"
    Users.emptyRangeSettings
  = Some (Users.ErrInvalidPassword "model.user.is_valid.pwd.app_error").
Proof.
  exact (proj2 (empty_password_and_empty_range 72 "abcdefghijklmnopqrstuvwxyz"
                  "ABCDEFGHIJKLMNOPQRSTUVWXYZ" "0123456789" "!#$%&*+-=?@^_~"
                  "Passw0rd" Users.emptyRangeSettings)
               eq_refl).
Defined.

Lemma policy_id_flags (s1 s2 : Users.PasswordSettings) :
  Users.policy_id s1 = Users.policy_id s2 ->
  Users.Lowercase s1 = Users.Lowercase s2 /\ Users.Uppercase s1 = Users.Uppercase s2
  /\ Users.Number s1 = Users.Number s2 /\ Users.Symbol s1 = Users.Symbol s2.
Proof.
  unfold Users.policy_id.
  destruct (Users.Lowercase s1), (Users.Uppercase s1), (Users.Number s1),
    (Users.Symbol s1), (Users.Lowercase s2), (Users.Uppercase s2),
    (Users.Number s2), (Users.Symbol s2);
    cbn; intros H; try discriminate H; repeat split.
Qed.

(** X4. The id of the error tells which character classes the settings
    require: two rejections with the same error come from settings
    with the same four flags, whatever the passwords and the minimum
    lengths were. *)
Theorem error_id_identifies_flags :
  forall (PasswordMaximumLength : Z)
         (LowercaseLetters UppercaseLetters NUMBERS SYMBOLS : string)
         (password1 password2 : string) (settings1 settings2 : Users.PasswordSettings)
         (e : Users.error),
    Users.IsPasswordValidWithSettings PasswordMaximumLength LowercaseLetters
      UppercaseLetters NUMBERS SYMBOLS password1 settings1 = Some e ->
    Users.IsPasswordValidWithSettings PasswordMaximumLength LowercaseLetters
      UppercaseLetters NUMBERS SYMBOLS password2 settings2 = Some e ->
    Users.Lowercase settings1 = Users.Lowercase settings2
    /\ Users.Uppercase settings1 = Users.Uppercase settings2
    /\ Users.Number settings1 = Users.Number settings2
    /\ Users.Symbol settings1 = Users.Symbol settings2.
Proof.
  intros maxLen lc uc nums syms p1 p2 s1 s2 e.
  rewrite !IsPasswordValidWithSettings_conforms.
  destruct (Users.conforms maxLen lc uc nums syms p1 s1); [discriminate|].
  destruct (Users.conforms maxLen lc uc nums syms p2 s2); [discriminate|].
  intros H1 H2. apply policy_id_flags. congruence.
Qed.

Lemma error_id_identifies_flags_witness :
  Users.Lowercase Users.strictSettings = Users.Lowercase Users.longStrictSettings
  /\ Users.Uppercase Users.strictSettings = Users.Uppercase Users.longStrictSettings
  /\ Users.Number Users.strictSettings = Users.Number Users.longStrictSettings
  /\ Users.Symbol Users.strictSettings = Users.Symbol Users.longStrictSettings.
Proof.
  exact (error_id_identifies_flags 72 "abcdefghijklmnopqrstuvwxyz"
           "ABCDEFGHIJKLMNOPQRSTUVWXYZ" "0123456789" "!#$%&*+-=?@^_~"
           "password" "Passw0rd" Users.strictSettings Users.longStrictSettings
           (Users.ErrInvalidPassword
              "model.user.is_valid.pwd_lowercase_uppercase_number.app_error")
           eq_refl eq_refl).
Defined.

(** X5. [isPasswordValid] accepts every password, the empty one
    included, when EnableDeveloper is set; otherwise it accepts a
    password exactly when its length is between MinimumLength and
    PasswordMaximumLength and it has a character of every required
    class. *)
Theorem isPasswordValid_spec :
  forall (PasswordMaximumLength : Z)
         (LowercaseLetters UppercaseLetters NUMBERS SYMBOLS : string)
         (config : Users.Config.t) (password : string),
    let settings := Users.Config.PasswordSettings config in
    Users.isPasswordValid PasswordMaximumLength LowercaseLetters UppercaseLetters
      NUMBERS SYMBOLS config password = None
    <-> Users.EnableDeveloper (Users.Config.ServiceSettings config) = true
        \/ ((Users.MinimumLength settings <= Users.len password
             <= PasswordMaximumLength)
            /\ (Users.Lowercase settings = true ->
                Users.has_char_of password LowercaseLetters)
            /\ (Users.Uppercase settings = true ->
                Users.has_char_of password UppercaseLetters)
            /\ (Users.Number settings = true -> Users.has_char_of password NUMBERS)
            /\ (Users.Symbol settings = true -> Users.has_char_of password SYMBOLS)).
Proof.
  intros maxLen lc uc nums syms config password settings. subst settings.
  unfold Users.isPasswordValid.
  destruct (Users.EnableDeveloper (Users.Config.ServiceSettings config)).
  - split; auto.
  - rewrite valid_iff_conforms, conforms_parts.
    rewrite <- !ContainsAny_has_char_of.
    split; [intros H; now right | intros [H|H]; [discriminate | exact H]].
Qed.

Lemma isPasswordValid_spec_witness :
  Users.isPasswordValid 72 "abcdefghijklmnopqrstuvwxyz"
    "ABCDEFGHIJKLMNOPQRSTUVWXYZ" "0123456789" "!#$%&*+-=?@^_~"
    (Users.Config.mk {| Users.EnableDeveloper := true |} Users.strictSettings) ""
  = None.
Proof.
  exact (proj2 (isPasswordValid_spec 72 "abcdefghijklmnopqrstuvwxyz"
                  "ABCDEFGHIJKLMNOPQRSTUVWXYZ" "0123456789" "!#$%&*+-=?@^_~"
                  (Users.Config.mk {| Users.EnableDeveloper := true |}
                                   Users.strictSettings) "")
               (or_introl eq_refl)).
Defined.

(** X6. Hash then compare: when bcrypt verifies the hashes it
    generates and never generates an empty hash, the hash
    [HashPassword] returns for a non-empty password passes
    [ComparePassword] with that password; the hash of the empty
    password does not, and no hash does with the empty password:
    [ComparePassword] accepts only a non-empty password against a
    non-empty hash that bcrypt accepts. *)
Theorem HashPassword_ComparePassword :
  forall (bcrypt_GenerateFromPassword : string -> Z -> string + string)
         (bcrypt_CompareHashAndPassword : string -> string -> option string),
    (forall password cost hash,
        bcrypt_GenerateFromPassword password cost = inl hash ->
        hash <> ""%string /\ bcrypt_CompareHashAndPassword hash password = None) ->
    forall password hash : string,
      (Users.HashPassword bcrypt_GenerateFromPassword password = Some hash ->
       if String.eqb password ""
       then Users.ComparePassword bcrypt_CompareHashAndPassword hash password
            = Some "empty password or hash"%string
       else Users.ComparePassword bcrypt_CompareHashAndPassword hash password = None)
      /\ (Users.ComparePassword bcrypt_CompareHashAndPassword hash password = None ->
          password <> ""%string /\ hash <> ""%string
          /\ bcrypt_CompareHashAndPassword hash password = None).
Proof.
  intros gen cmp Hbcrypt password hash. split.
  - unfold Users.HashPassword, Users.ComparePassword.
    destruct (gen password 10) as [h|err] eqn:Hgen; [|discriminate].
    intros E. inversion E. subst h.
    destruct (Hbcrypt _ _ _ Hgen) as [Hne Hok].
    destruct (String.eqb password "") eqn:Hp; cbn [orb]; [reflexivity|].
    apply String.eqb_neq in Hne. now rewrite Hne.
  - unfold Users.ComparePassword.
    destruct (String.eqb password "") eqn:Hp; cbn [orb]; [discriminate|].
    destruct (String.eqb hash "") eqn:Hh; [discriminate|].
    apply String.eqb_neq in Hp, Hh. auto.
Qed.

Lemma HashPassword_ComparePassword_witness :
  Users.ComparePassword Users.demoCompare "$2a$10$s3cret" "s3cret" = None
  /\ Users.ComparePassword Users.demoCompare "$2a$10$" ""
     = Some "empty password or hash"%string.
Proof.
  assert (Hbcrypt : forall password cost hash,
             Users.demoGenerate password cost = inl hash ->
             hash <> ""%string /\ Users.demoCompare hash password = None).
  { intros password cost hash. unfold Users.demoGenerate, Users.demoCompare.
    destruct (Users.len password >? 72); [discriminate|].
    intros E. inversion E. split; [discriminate|].
    now rewrite String.eqb_refl. }
  split.
  - exact (proj1 (HashPassword_ComparePassword Users.demoGenerate Users.demoCompare
                    Hbcrypt "s3cret" "$2a$10$s3cret") eq_refl).
  - exact (proj1 (HashPassword_ComparePassword Users.demoGenerate Users.demoCompare
                    Hbcrypt "" "$2a$10$") eq_refl).
Defined.

(* ===================================================================== *)
(** * Further properties: package api4 *)
(* ===================================================================== *)

(** *** Handlers that only read *)

Lemma read_handlers_only_read (app : App) (model : Decoders) (op : Op)
      (r : Request) (params : Params.t) (session : Session.t) :
  audits op = false ->
  forallb is_read_event (trace (serve app model op r params session)) = true.
Proof.
  intros Hop. destruct op; try discriminate Hop; clear Hop.
  all: run_all; reflexivity.
Qed.

Lemma read_events_quiet (tr : list Event) :
  forallb is_read_event tr = true ->
  mutations tr = [] /\ begun tr = [] /\ emitted tr = []
  /\ ~ In (LicenseCheck true) tr /\ ~ In (LicenseCheck false) tr.
Proof.
  induction tr as [|e tr IH]; cbn [forallb].
  - intros _. repeat split; auto.
  - intros H. apply andb_prop in H as [He Htr].
    destruct (IH Htr) as (I1 & I2 & I3 & I4 & I5).
    unfold mutations in *.
    destruct e; cbn in He; try discriminate He; cbn.
    + apply negb_true_iff in He. rewrite He.
      repeat split; try assumption; intros [H|H]; try discriminate H; auto.
    + repeat split; try assumption; intros [H|H]; try discriminate H; auto.
    + repeat split; try assumption; intros [H|H]; try discriminate H; auto.
    + repeat split; try assumption; intros [H|H]; try discriminate H; auto.
Qed.

(** X7. The seven handlers that create no audit record only read: in
    every run their events are permission checks, facade calls that
    are not mutations, the setting of the error and the write of the
    answer; they call none of CreateScheme, PatchScheme, DeleteScheme,
    UpdatePreferences, DeletePreferences, never consult the license and
    emit no audit record. *)
Theorem read_handlers_have_no_side_effect :
  forall (app : App) (model : Decoders) (op : Op) (r : Request)
         (params : Params.t) (session : Session.t),
    audits op = false ->
    let tr := trace (serve app model op r params session) in
    forallb is_read_event tr = true
    /\ mutations tr = [] /\ begun tr = [] /\ emitted tr = []
    /\ ~ In (LicenseCheck true) tr /\ ~ In (LicenseCheck false) tr.
Proof.
  intros app model op r params session Hop tr. subst tr.
  pose proof (read_handlers_only_read app model op r params session Hop) as H.
  split; [exact H | now apply read_events_quiet].
Qed.

Lemma read_handlers_have_no_side_effect_witness :
  mutations (trace (serve (demoApp licensed false) demoModel OpGetTeamsForScheme
                          {| Body := "" |} (forScheme "scheme1") admin)) = [].
Proof.
  exact (proj1 (proj2 (read_handlers_have_no_side_effect
                         (demoApp licensed false) demoModel OpGetTeamsForScheme
                         {| Body := "" |} (forScheme "scheme1") admin eq_refl))).
Defined.

(** *** Routes *)

(** X8. The two route tables register every handler exactly once and
    no method/path pair twice; a route is registered for GET exactly
    when its handler is one of those that create no audit record, so a
    request routed by a GET line never makes a mutating facade call and
    emits no audit record; and the TrustRequester wrapper is used on
    GET routes only. *)
Theorem get_routes_only_read :
  NoDup (map (fun route => (Method route, Path route)) InitScheme)
  /\ NoDup (map (fun route => (Method route, Path route)) InitPreference)
  /\ (NoDup (map Handler (InitScheme ++ InitPreference))
      /\ forall op : Op, In op (map Handler (InitScheme ++ InitPreference)))
  /\ (forall route : Route,
         In route (InitScheme ++ InitPreference) ->
         (Method route = "GET"%string <-> audits (Handler route) = false)
         /\ (Wrapped route = ApiSessionRequiredTrustRequester ->
             Method route = "GET"%string)
         /\ (Method route = "GET"%string ->
             forall (app : App) (model : Decoders) (r : Request)
                    (params : Params.t) (session : Session.t),
               mutations (trace (serve app model (Handler route) r params session))
               = []
               /\ emitted (trace (serve app model (Handler route) r params session))
                  = [])).
Proof.
  split; [|split; [|split]].
  - repeat constructor; cbn; intuition discriminate.
  - repeat constructor; cbn; intuition discriminate.
  - split; [repeat constructor; cbn; intuition discriminate|].
    intros op. destruct op; cbn; tauto.
  - intros route Hin.
    assert (Hget : Method route = "GET"%string <-> audits (Handler route) = false).
    { cbn in Hin.
      repeat (destruct Hin as [<-|Hin]; [cbn; split; congruence|]).
      destruct Hin. }
    split; [exact Hget|]. split.
    + cbn in Hin.
      repeat (destruct Hin as [<-|Hin]; [cbn; congruence|]).
      destruct Hin.
    + intros Hm app model r params session.
      apply Hget in Hm.
      pose proof (read_handlers_only_read app model (Handler route) r params
                                          session Hm) as H.
      apply read_events_quiet in H. tauto.
Qed.

Lemma get_routes_only_read_witness :
  mutations (trace (serve (demoApp licensed false) demoModel OpGetScheme
                          {| Body := "" |} (forScheme "scheme1") user1)) = [].
Proof.
  exact (proj1 (proj2 (proj2 (proj2 (proj2 (proj2 get_routes_only_read))
                                    {| Path := "/{scheme_id:[A-Za-z0-9]+}";
                                       Wrapped := ApiSessionRequiredTrustRequester;
                                       Handler := OpGetScheme; Method := "GET" |}
                                    (or_intror
                                       (or_intror (or_intror (or_introl eq_refl))))))
                      eq_refl (demoApp licensed false) demoModel {| Body := "" |}
                      (forScheme "scheme1") user1)).
Defined.

(** *** More on the loop of updatePreferences *)

Lemma after_error_app (pre l : list Event) :
  err_writes pre = [] -> after_error (pre ++ l) = after_error l.
Proof.
  induction pre as [|e pre IH]; cbn; [reflexivity|].
  destruct e; cbn; try exact IH. discriminate.
Qed.

Lemma loads_are_no_mutations (calls : list Call) :
  forallb is_load calls = true -> filter is_mutation calls = [].
Proof.
  induction calls as [|call calls IH]; cbn; [reflexivity|].
  intros H. apply andb_prop in H as [Hc Hcalls].
  destruct call; cbn in Hc |- *; try discriminate Hc; now apply IH.
Qed.

(** The lookups of the loop are those of the flagged entries, in the
    order of the list, up to the entry it stops at; it runs through
    exactly when every flagged entry is readable. *)
Lemma flaggedPostScan_lookups (app : App) (session : Session.t) (prefs : Preferences) :
  forall evs stop,
    flaggedPostScan app session prefs = (evs, stop) ->
    (exists k, facade_calls evs = firstn k (lookups prefs))
    /\ match stop with
       | None =>
           facade_calls evs = lookups prefs
           /\ forallb (fun p => negb (is_flagged p) || readable app session p) prefs
              = true
       | Some _ =>
           forallb (fun p => negb (is_flagged p) || readable app session p) prefs
           = false
       end.
Proof.
  unfold lookups, readable, facade_calls.
  induction prefs as [|pref rest IH]; intros evs stop; cbn [flaggedPostScan].
  - intros E. inversion E. split; [now exists 0%nat | now split].
  - cbn [filter forallb].
    destruct (is_flagged pref); cbn [negb orb map].
    + destruct (AppGetSinglePost app (Preference.Name pref)) as [post|err].
      * destruct (AppSessionHasPermissionToChannel app session (Post.ChannelId post)
                                                    PermissionReadChannel).
        -- destruct (flaggedPostScan app session rest) as [evs' stop'].
           intros E. inversion E. subst evs stop'. clear E.
           destruct (IH _ _ eq_refl) as [[k Hk] Hstop].
           cbn [andb]. split.
           ++ exists (S k). cbn. now rewrite Hk.
           ++ destruct stop; [exact Hstop|].
              destruct Hstop as [H1 H2]. split; [cbn; now rewrite H1 | exact H2].
        -- intros E. inversion E. split; [now exists 1%nat | reflexivity].
      * intros E. inversion E. split; [now exists 1%nat | reflexivity].
    + cbn [andb]. apply IH.
Qed.

(** *** What every request keeps to *)

(** X9. Once a handler has set the error it does nothing more: what
    follows the setting of the error in a run is the emission of the
    audit record, if the handler has one, and nothing else. *)
Theorem nothing_after_the_error :
  forall (app : App) (model : Decoders) (op : Op) (r : Request)
         (params : Params.t) (session : Session.t),
    let tr := trace (serve app model op r params session) in
    err_writes tr <> [] ->
    after_error tr = map AuditEmit (emitted tr).
Proof.
  intros app model op r params session tr. subst tr.
  destruct op.
  all: run_loop.
  all: observe_with
         ltac:(first [ rewrite after_error_app by assumption
                     | progress cbn [after_error] ]).
  all: intros Hne; try reflexivity; now contradiction Hne.
Qed.

Lemma nothing_after_the_error_witness :
  after_error (trace (serve (demoApp None false) demoModel OpDeleteScheme
                            {| Body := "" |} (forScheme "scheme1") admin))
  = [AuditEmit (Record_.mk "deleteScheme" Fail [])].
Proof.
  exact (nothing_after_the_error (demoApp None false) demoModel OpDeleteScheme
           {| Body := "" |} (forScheme "scheme1") admin ltac:(discriminate)).
Defined.

(** X10. A handler writes its answer exactly when the request ends
    without error, and then writes it once: one payload, preceded in
    createScheme by the status 201; a request that ends with an error
    has written nothing. *)
Theorem answer_written_iff_no_error :
  forall (app : App) (model : Decoders) (op : Op) (r : Request)
         (params : Params.t) (session : Session.t),
    let st := serve app model op r params session in
    (Err (c st) = None <-> writes (trace st) <> [])
    /\ (writes (trace st) = []
        \/ (exists payload, writes (trace st) = [Write payload])
        \/ (op = OpCreateScheme
            /\ exists scheme,
                 writes (trace st)
                 = [WriteHeader StatusCreated; Write (JsonScheme scheme)])).
Proof.
  intros app model op r params session st. subst st.
  destruct op.
  all: run_loop; observe.
  all: split;
    [ split;
      [ intros H; first [discriminate H | intros Hw; discriminate Hw]
      | intros H; first [reflexivity | exfalso; apply H; reflexivity] ]
    | first [ left; reflexivity
            | right; left; eexists; reflexivity
            | right; right; split; [reflexivity | eexists; reflexivity] ] ].
Qed.

(** X11. A request makes at most one mutating facade call.  When it
    makes one, no permission check of the request has failed, the call
    is the last facade call of the request, and what it returns is how
    the request ends: its error is the request's error, and without
    one the request succeeds.  A handler that audits and makes no
    mutating call ends with an error. *)
Theorem one_mutation_after_all_checks :
  forall (app : App) (model : Decoders) (op : Op) (r : Request)
         (params : Params.t) (session : Session.t),
    let st := serve app model op r params session in
    let tr := trace st in
    (mutations tr = [] /\ (audits op = true -> Err (c st) <> None))
    \/ (exists m,
           mutations tr = [m]
           /\ (exists before, facade_calls tr = before ++ [m])
           /\ denied tr = false
           /\ Err (c st) = facade_error app m).
Proof.
  intros app model op r params session st tr. subst tr st. unfold mutations.
  destruct op; cbn [audits].
  all: run_loop.
  all: observe_with
         ltac:(first [ rewrite filter_app
                     | rewrite denied_app
                     | rewrite loads_are_no_mutations by assumption
                     | progress cbn [denied existsb is_denial filter is_mutation] ]).
  all: first
         [ left; split; [reflexivity | intros H; discriminate]
         | right; eexists; split; [reflexivity|];
           split; [repeat first [apply ends_single | apply ends_cons | apply ends_app]|];
           split; [reflexivity|];
           cbn [facade_error err_of];
           repeat match goal with
                  | H : ?x = _ |- context [?x] => rewrite H
                  end;
           reflexivity ].
Qed.

(** *** Who may call the facade, and with what *)

Ltac cases_of_membership Hin :=
  cbn [In] in Hin; rewrite ?in_app_iff in Hin; cbn [In] in Hin;
  repeat match goal with
         | H : _ \/ _ |- _ => destruct H
         | H : False |- _ => destruct H
         end.

Ltac use_answers :=
  repeat match goal with
         | H : ?x = _ |- context [?x] => rewrite H
         end.

(** X12. Every facade call of a request is backed by a grant: the
    scheme mutations by the license and the write permission; the
    scheme reads by the read permission of their handler, except that
    patchScheme loads the scheme under the license alone, before it
    asks for the write permission; every preference call, and the post
    lookups of updatePreferences, by SessionHasPermissionToUser for
    the user the call is about. *)
Theorem facade_calls_are_authorized :
  forall (app : App) (model : Decoders) (op : Op) (r : Request)
         (params : Params.t) (session : Session.t) (call : Call),
    In call (facade_calls (trace (serve app model op r params session))) ->
    authorized app op params session call.
Proof.
  intros app model op r params session.
  destruct op.
  all: run_loop; intros theCall; observe; intros Hin; cases_of_membership Hin.
  all: try match goal with
           | HF : Forall _ (facade_calls ?pre), HI : In _ (facade_calls ?pre) |- _ =>
               let Q := fresh "Q" in
               pose proof (proj1 (Forall_forall _ _) HF _ HI) as Q;
               destruct Q as [[? ?] ?]
           end.
  all: subst; cbn [authorized]; unfold license_lacking; use_answers;
    repeat split; reflexivity.
Qed.

Lemma facade_calls_are_authorized_witness :
  authorized (demoApp licensed false) OpPatchScheme (forScheme "scheme1") admin
             (CallPatchScheme teamScheme (SchemePatch.mk (Some "renamed") None)).
Proof.
  exact (facade_calls_are_authorized (demoApp licensed false) demoModel
           OpPatchScheme {| Body := "renamed" |} (forScheme "scheme1") admin
           (CallPatchScheme teamScheme (SchemePatch.mk (Some "renamed") None))
           (or_intror (or_introl eq_refl))).
Defined.

Lemma firstn_incl {A : Type} (k : nat) (l : list A) (x : A) :
  In x (firstn k l) -> In x l.
Proof.
  intros H. rewrite <- (firstn_skipn k l). apply in_or_app. now left.
Qed.

Lemma lookup_of_flagged_entry (prefs : Preferences) (call : Call) :
  In call (lookups prefs) ->
  exists pref,
    In pref prefs /\ is_flagged pref = true
    /\ call = CallGetSinglePost (Preference.Name pref).
Proof.
  unfold lookups. rewrite in_map_iff. intros [pref [Hcall Hin]].
  apply filter_In in Hin as [Hin Hflag]. now exists pref.
Qed.

(** X13. The facade is called with the request's own, checked data:
    the ids are the SchemeId / UserId / Category / PreferenceName of
    the parameters and are not empty; the scope of GetSchemesPage is
    the empty one, "team" or "channel"; the scheme of PatchScheme and
    of the two page queries is the one GetScheme returned for the
    SchemeId, with the scope the query is for; CreateScheme gets the
    decoded body; UpdatePreferences and DeletePreferences get the
    decoded list as it is; and a post is looked up only for a
    flagged_post entry of that list, by the entry's name. *)
Theorem facade_arguments_come_from_the_request :
  forall (app : App) (model : Decoders) (op : Op) (r : Request)
         (params : Params.t) (session : Session.t) (call : Call),
    In call (facade_calls (trace (serve app model op r params session))) ->
    from_request app model r params call.
Proof.
  intros app model op r params session.
  destruct op.
  11: { crunch; repeat (rewrite sanitizePreferences_scan || branch).
        all: intros theCall; observe; intros Hin; cases_of_membership Hin;
          try discriminate.
        all: repeat match goal with
                    | H : flaggedPostScan _ _ _ = _ |- _ =>
                        let L := fresh "L" in
                        pose proof (flaggedPostScan_lookups _ _ _ _ _ H) as L;
                        destruct L as [[? ?] ?]; clear H
                    end.
        all: strings.
        all: try match goal with
                 | HI : In ?x (facade_calls ?evs), HK : facade_calls ?evs = firstn _ _
                   |- _ =>
                     rewrite HK in HI; apply firstn_incl in HI;
                     apply lookup_of_flagged_entry in HI;
                     destruct HI as (pref & ? & ? & ->);
                     cbn [from_request]; now exists p, pref
                 end.
        all: subst; cbn [from_request]; intuition congruence. }
  all: run_all; intros theCall Hin; cbn [facade_calls flat_map List.app] in Hin;
    cases_of_membership Hin; subst; cbn [from_request]; strings;
    intuition congruence.
Qed.

Lemma facade_arguments_come_from_the_request_witness :
  from_request (demoApp licensed false) demoModel {| Body := "theme,flag:post1" |}
               (forUser "user1") (CallGetSinglePost "post1").
Proof.
  exact (facade_arguments_come_from_the_request
           (demoApp licensed false) demoModel OpUpdatePreferences
           {| Body := "theme,flag:post1" |} (forUser "user1") user1
           (CallGetSinglePost "post1") (or_introl eq_refl)).
Defined.

(** *** getSchemes *)

(** X14. getSchemes asks for the read permission before it looks at the
    scope: without the permission the request ends with the permission
    error whatever the scope is; with it, a scope other than the empty
    one, "team" and "channel" ends the request with the
    invalid-parameter error for "scope" and no facade call, and an
    allowed scope is passed with Page and PerPage to GetSchemesPage,
    whose schemes are written or whose error becomes the request's. *)
Theorem getSchemes_permission_then_scope :
  forall (app : App) (model : Decoders) (r : Request) (params : Params.t)
         (session : Session.t),
    let st := serve app model OpGetSchemes r params session in
    let scope := Params.Scope params in
    if AppSessionHasPermissionTo
         app session PermissionSysconsoleReadUserManagementPermissions
    then
      if String.eqb scope "" || String.eqb scope SchemeScopeTeam
         || String.eqb scope SchemeScopeChannel
      then facade_calls (trace st)
           = [CallGetSchemesPage scope (Params.Page params) (Params.PerPage params)]
           /\ match AppGetSchemesPage app scope (Params.Page params)
                                      (Params.PerPage params) with
              | inl schemes =>
                  Err (c st) = None
                  /\ writes (trace st) = [Write (JsonSchemes schemes)]
              | inr err => Err (c st) = Some err /\ writes (trace st) = []
              end
      else Err (c st) = Some (NewAppError "Context" "scope" [] "" StatusBadRequest)
           /\ trace st
              = [PermissionCheck
                   (ToPermission PermissionSysconsoleReadUserManagementPermissions)
                   true;
                 ErrSet (NewAppError "Context" "scope" [] "" StatusBadRequest)]
    else Err (c st)
         = Some (NewAppError "Permissions"
                             (Permission_Id
                                PermissionSysconsoleReadUserManagementPermissions)
                             [] "" StatusForbidden)
         /\ facade_calls (trace st) = [].
Proof.
  intros app model r params session st scope. subst st scope.
  run_all; repeat split; reflexivity.
Qed.

(** *** updatePreferences *)



Ltac scan_lookups :=
  repeat match goal with
         | H : flaggedPostScan _ _ _ = _ |- _ =>
             let L := fresh "L" in
             pose proof (flaggedPostScan_lookups _ _ _ _ _ H) as L;
             cbv beta iota in L; destruct L as [[? ?] ?]; clear H
         end;
  repeat match goal with
         | H : _ /\ _ |- _ => destruct H
         end.

(** X15. updatePreferences succeeds exactly when the UserId is present,
    the session may act for that user, the body decodes, every
    flagged_post entry of the list names a post that exists in a
    channel the session may read, and UpdatePreferences returns no
    error; and then its facade calls are the lookups of the flagged
    entries, in the order of the list, followed by UpdatePreferences
    with the whole decoded list, unchanged. *)
Theorem updatePreferences_succeeds_iff :
  forall (app : App) (model : Decoders) (r : Request) (params : Params.t)
         (session : Session.t),
    let st := serve app model OpUpdatePreferences r params session in
    (Err (c st) = None
     <-> Params.UserId params <> ""%string
         /\ AppSessionHasPermissionToUser app session (Params.UserId params) = true
         /\ exists prefs,
              PreferencesFromJson model (Body r) = inl prefs
              /\ forallb (fun p => negb (is_flagged p) || readable app session p)
                         prefs = true
              /\ AppUpdatePreferences app (Params.UserId params) prefs = None)
    /\ (forall prefs,
           PreferencesFromJson model (Body r) = inl prefs ->
           Err (c st) = None ->
           facade_calls (trace st)
           = lookups prefs ++ [CallUpdatePreferences (Params.UserId params) prefs]).
Proof.
  intros app model r params session st. subst st.
  crunch; repeat (rewrite sanitizePreferences_scan || branch).
  all: scan_lookups; crunch; strings; observe.
  all: split;
    [ split;
      [ intros H; try discriminate H; repeat split; try assumption;
        eexists; repeat split; eassumption
      | intros (Hu & Hp & prefs & Hparse & Hall & Hupd); try reflexivity;
        congruence ]
    | intros prefs Hparse H; try discriminate H; congruence ].
Qed.



Lemma updatePreferences_succeeds_iff_witness :
  facade_calls (trace (serve (demoApp licensed false) demoModel OpUpdatePreferences
                             {| Body := "theme,flag:post1" |} (forUser "user1")
                             user1))
  = lookups [themePref; flagPost1]
    ++ [CallUpdatePreferences "user1" [themePref; flagPost1]].
Proof.
  exact (proj2 (updatePreferences_succeeds_iff (demoApp licensed false) demoModel
                  {| Body := "theme,flag:post1" |} (forUser "user1") user1)
               [themePref; flagPost1] eq_refl eq_refl).
Defined.

(** *** What the audit record carries *)

(** X17. The record a handler emits carries: for createScheme the
    decoded payload, and after it the created scheme when the request
    succeeded; for deleteScheme the deleted scheme when the request
    succeeded and nothing otherwise; for patchScheme the scheme
    GetScheme returned, once the license check has passed and the load
    succeeded, and after it, under the key "patch", the patched scheme
    when the permission was granted and PatchScheme succeeded; for
    updatePreferences and deletePreferences nothing.  The other
    handlers emit no record. *)
Theorem audit_record_contents :
  forall (app : App) (model : Decoders) (op : Op) (r : Request)
         (params : Params.t) (session : Session.t) (rec : Record_.t),
    let st := serve app model op r params session in
    emitted (trace st) = [rec] ->
    match op with
    | OpCreateScheme =>
        exists scheme,
          SchemeFromJson model (Body r) = Some scheme
          /\ ((Err (c st) <> None
               /\ Record_.Meta rec = [("scheme"%string, MetaScheme scheme)])
              \/ (exists created,
                     Err (c st) = None
                     /\ AppCreateScheme app scheme = inl created
                     /\ Record_.Meta rec
                        = [("scheme"%string, MetaScheme scheme);
                           ("scheme"%string, MetaScheme created)]))
    | OpDeleteScheme =>
        (Err (c st) <> None /\ Record_.Meta rec = [])
        \/ (exists deleted,
               Err (c st) = None
               /\ AppDeleteScheme app (Params.SchemeId params) = inl deleted
               /\ Record_.Meta rec = [("scheme"%string, MetaScheme deleted)])
    | OpPatchScheme =>
        exists patch,
          SchemePatchFromJson model (Body r) = Some patch
          /\ Record_.Meta rec = patchScheme_meta app session params patch
    | OpUpdatePreferences | OpDeletePreferences => Record_.Meta rec = []
    | _ => False
    end.
Proof.
  intros app model op r params session.
  destruct op.
  all: run_loop; intros theRec; observe; intros Hrec; try discriminate Hrec;
    injection Hrec as <-; cbv beta iota.
  all: try reflexivity.
  all: try (eexists; split; [reflexivity|];
            first [ left; split; [discriminate | reflexivity]
                  | right; eexists; repeat split;
                    first [eassumption | reflexivity] ]).
  all: try (first [ left; split; [discriminate | reflexivity]
                  | right; eexists; repeat split;
                    first [eassumption | reflexivity] ]).
  all: eexists; split; [reflexivity|];
    unfold patchScheme_meta, license_lacking; use_answers; reflexivity.
Qed.

Lemma audit_record_contents_witness :
  Record_.Meta (Record_.mk "patchScheme" Fail [("scheme"%string, MetaScheme teamScheme)])
  = patchScheme_meta (demoApp licensed false) user1 (forScheme "scheme1")
                     (SchemePatch.mk (Some "renamed") None).
Proof.
  destruct (audit_record_contents (demoApp licensed false) demoModel OpPatchScheme
              {| Body := "renamed" |} (forScheme "scheme1") user1
              (Record_.mk "patchScheme" Fail
                          [("scheme"%string, MetaScheme teamScheme)])
              eq_refl) as [patch [Hpatch Hmeta]].
  injection Hpatch as <-. exact Hmeta.
Defined.

(** *** The permission error *)

Lemma first_denied_app (pre l : list Event) :
  denied pre = false -> first_denied (pre ++ l) = first_denied l.
Proof.
  induction pre as [|e pre IH]; cbn; [reflexivity|].
  destruct e as [|chk granted| | | | | | | | |]; cbn; try exact IH.
  destruct granted; [exact IH | discriminate].
Qed.

(** X18. The permission error a request ends with names the permission
    of the check that failed: the permission asked of the oracle for
    the checks of a named permission (among them the channel check of
    updatePreferences, read_channel), and edit_other_users for the
    check of the session against a user. *)
Theorem permission_error_names_failed_check :
  forall (app : App) (model : Decoders) (op : Op) (r : Request)
         (params : Params.t) (session : Session.t) (chk : Check),
    let st := serve app model op r params session in
    first_denied (trace st) = Some chk ->
    Err (c st)
    = Some (NewAppError "Permissions" (Permission_Id (reported_permission chk))
                        [] "" StatusForbidden).
Proof.
  intros app model op r params session.
  destruct op.
  all: run_loop; intros theCheck.
  all: observe_with
         ltac:(first [ rewrite first_denied_app by assumption
                     | progress cbn [first_denied] ]).
  all: intros H; try discriminate H; injection H as <-; reflexivity.
Qed.

Lemma permission_error_names_failed_check_witness :
  Err (c (serve (demoApp licensed false) demoModel OpUpdatePreferences
                {| Body := "theme,flag:post2" |} (forUser "user1") user1))
  = Some (NewAppError "Permissions" (Permission_Id PermissionReadChannel)
                      [] "" StatusForbidden).
Proof.
  exact (permission_error_names_failed_check (demoApp licensed false) demoModel
           OpUpdatePreferences {| Body := "theme,flag:post2" |} (forUser "user1")
           user1 (ToChannel "private" PermissionReadChannel) eq_refl).
Defined.

(** *** deletePreferences *)

(** X19. deletePreferences succeeds exactly when the UserId is present,
    the session may act for that user, the body decodes and
    DeletePreferences returns no error.  Unlike updatePreferences it
    looks at no entry of the list: its only permission check is the one
    against the user, it looks no post up, and DeletePreferences is its
    only facade call, with the decoded list. *)
Theorem deletePreferences_succeeds_iff :
  forall (app : App) (model : Decoders) (r : Request) (params : Params.t)
         (session : Session.t),
    let st := serve app model OpDeletePreferences r params session in
    (Err (c st) = None
     <-> Params.UserId params <> ""%string
         /\ AppSessionHasPermissionToUser app session (Params.UserId params) = true
         /\ exists prefs,
              PreferencesFromJson model (Body r) = inl prefs
              /\ AppDeletePreferences app (Params.UserId params) prefs = None)
    /\ (forall chk granted,
           In (chk, granted) (permission_checks (trace st)) ->
           chk = ToUser (Params.UserId params))
    /\ (forall call,
           In call (facade_calls (trace st)) ->
           exists prefs,
             PreferencesFromJson model (Body r) = inl prefs
             /\ call = CallDeletePreferences (Params.UserId params) prefs).
Proof.
  intros app model r params session st. subst st.
  run_all; strings.
  all: split; [|split].
  all: try (intros chk granted Hin; cbn in Hin; intuition congruence).
  all: try (intros call Hin; cbn in Hin;
            first [ contradiction
                  | destruct Hin as [<-|[]]; eexists;
                    split; first [eassumption | reflexivity] ]).
  all: split;
    [ intros H; try discriminate H; repeat split; try assumption;
      try reflexivity; eexists; split; first [eassumption | reflexivity]
    | intros (Hu & Hp & prefs & Hparse & Hdel); try reflexivity; congruence ].
Qed.

(** *** The legacy audit entry *)

Lemma loop_events_no_legacy (app : App) (pre : list Event) :
  forallb (loop_event app) pre = true -> legacy_audits pre = [].
Proof.
  induction pre as [|e pre IH]; cbn [forallb]; [reflexivity|].
  intros H. apply andb_prop in H as [He Hpre].
  destruct e as [call|chk b| | | | | | | | |]; cbn in He; try discriminate;
    now apply IH.
Qed.

Lemma legacy_audits_app (l1 l2 : list Event) :
  legacy_audits (l1 ++ l2) = legacy_audits l1 ++ legacy_audits l2.
Proof. apply flat_map_app. Qed.

(** X20. patchScheme is the only handler that writes the older audit
    entry ([c.LogAudit]); it writes it once, with empty extra
    information, when the patch succeeded, and not on any failure. *)
Theorem legacy_audit_only_for_successful_patch :
  forall (app : App) (model : Decoders) (op : Op) (r : Request)
         (params : Params.t) (session : Session.t),
    let st := serve app model op r params session in
    legacy_audits (trace st)
    = match op, Err (c st) with
      | OpPatchScheme, None => [""%string]
      | _, _ => []
      end.
Proof.
  intros app model op r params session st. subst st.
  destruct op.
  11: { crunch; repeat (rewrite sanitizePreferences_scan || branch).
        all: repeat match goal with
                    | H : flaggedPostScan ?a ?s ?p = _ |- _ =>
                        let O := fresh "O" in
                        pose proof (flaggedPostScan_outcome a s p _ _ H) as O;
                        clear H; inversion O; subst; clear O
                    end.
        all: repeat match goal with
                    | H : forallb (loop_event _) _ = true |- _ =>
                        apply loop_events_no_legacy in H
                    end.
        all: observe_with
               ltac:(first [ rewrite legacy_audits_app
                           | progress cbn [legacy_audits flat_map List.app] ]).
        all: reflexivity. }
  all: run_all; reflexivity.
Qed.

(** *** What a reading request answers *)

(** X21. A reading handler that ends without error has written, as its
    only output, what the facade returned for the parameters of the
    request: the scheme of SchemeId, the page of schemes for Scope,
    Page and PerPage, the teams or channels of the scheme of SchemeId,
    the preferences of UserId, of UserId and Category, or the
    preference of UserId, Category and PreferenceName. *)
Theorem read_handlers_write_the_facade_answer :
  forall (app : App) (model : Decoders) (op : Op) (r : Request)
         (params : Params.t) (session : Session.t),
    audits op = false ->
    let st := serve app model op r params session in
    Err (c st) = None ->
    exists payload,
      read_answer app op params = Some payload
      /\ writes (trace st) = [Write payload].
Proof.
  intros app model op r params session Hop st. subst st.
  destruct op; try discriminate Hop; clear Hop.
  all: unfold read_answer; run_all; intros H; try discriminate H.
  all: eexists; split; reflexivity.
Qed.

Lemma read_handlers_write_the_facade_answer_witness :
  exists payload,
    read_answer (demoApp licensed false) OpGetChannelsForScheme (forScheme "scheme2")
    = Some payload
    /\ writes (trace (serve (demoApp licensed false) demoModel OpGetChannelsForScheme
                            {| Body := "" |} (forScheme "scheme2") admin))
       = [Write payload].
Proof.
  exact (read_handlers_write_the_facade_answer (demoApp licensed false) demoModel
           OpGetChannelsForScheme {| Body := "" |} (forScheme "scheme2") admin
           eq_refl eq_refl).
Defined.

(** *** When a scheme mutation succeeds *)

(* Two successful answers of one facade call are the same value. *)
Ltac same_answer :=
  match goal with
  | Ha : ?x = inl ?a, Hb : ?x = inl ?b |- _ =>
      assert (a = b) by congruence; subst a
  end.

(** X22. createScheme, patchScheme and deleteScheme succeed exactly
    when everything on their way holds: the scheme id is present
    (patch, delete), the body decodes (create, patch), the license has
    the feature, GetScheme finds the scheme (patch), the write
    permission is granted and the mutating call returns a scheme; the
    handler then writes 201 and the created scheme, the patched
    scheme, or the OK status, and nothing else. *)
Theorem scheme_mutations_succeed_iff :
  forall (app : App) (model : Decoders) (r : Request) (params : Params.t)
         (session : Session.t),
    let granted :=
      AppSessionHasPermissionTo
        app session PermissionSysconsoleWriteUserManagementPermissions in
    (forall created,
        (Err (c (serve app model OpCreateScheme r params session)) = None
         /\ writes (trace (serve app model OpCreateScheme r params session))
            = [WriteHeader StatusCreated; Write (JsonScheme created)])
        <-> exists scheme,
              SchemeFromJson model (Body r) = Some scheme
              /\ license_lacking app = false /\ granted = true
              /\ AppCreateScheme app scheme = inl created)
    /\ (forall patched,
           (Err (c (serve app model OpPatchScheme r params session)) = None
            /\ writes (trace (serve app model OpPatchScheme r params session))
               = [Write (JsonScheme patched)])
           <-> Params.SchemeId params <> ""%string
               /\ exists patch scheme,
                    SchemePatchFromJson model (Body r) = Some patch
                    /\ license_lacking app = false
                    /\ AppGetScheme app (Params.SchemeId params) = inl scheme
                    /\ granted = true
                    /\ AppPatchScheme app scheme patch = inl patched)
    /\ ((Err (c (serve app model OpDeleteScheme r params session)) = None
         /\ writes (trace (serve app model OpDeleteScheme r params session))
            = [Write JsonStatusOK])
        <-> Params.SchemeId params <> ""%string
            /\ license_lacking app = false /\ granted = true
            /\ exists deleted,
                 AppDeleteScheme app (Params.SchemeId params) = inl deleted).
Proof.
  intros app model r params session granted. subst granted.
  unfold license_lacking.
  split; [|split].
  - intros created. run_all; strings.
    all: split;
      [ intros [H Hw]; try discriminate H; injection Hw as <-;
        eexists; repeat split; first [eassumption | reflexivity]
      | intros (scheme & H1 & H2 & H3 & H4); try discriminate;
        try (injection H1 as <-);
        first [ congruence | same_answer; split; reflexivity ] ].
  - intros patched. run_all; strings.
    all: split;
      [ intros [H Hw]; try discriminate H; injection Hw as <-;
        (split; [assumption|]); do 2 eexists; repeat split;
        first [eassumption | reflexivity]
      | intros (Hid & patch & scheme & H1 & H2 & H3 & H4 & H5); try discriminate;
        try contradiction; try (injection H1 as <-); try (injection H3 as <-);
        first [ congruence | same_answer; split; reflexivity ] ].
  - run_all; strings.
    all: split;
      [ intros [H Hw]; try discriminate H; repeat split; try assumption;
        try reflexivity; eexists; first [eassumption | reflexivity]
      | intros (Hid & H2 & H3 & deleted & H4); try discriminate;
        try contradiction; first [ congruence | split; reflexivity ] ].
Qed.
